(** * Triangle performance-evaluation app (src/main.py): a shallow embedding

    The development follows the layout of [src/main.py]:
    - Python values, exceptions and the outcome of a run;
    - the [random] module the generators call ([seed], [choice],
      [shuffle], [sample], [randint]), over an abstract bit source, and
      the Mersenne Twister as the concrete one;
    - the five objective-item generators and the Generate handler;
    - the roster upload handler over a small model of a data frame;
    - the auto-grade and rubric-save handlers over the session stores;
    - the properties of the specification, one theorem each;
    - further properties of the generators and the handlers. *)

From Stdlib Require Import Ascii DecimalString DecimalZ.
From stdpp Require Import gmap strings list fin_maps sorting.

Open Scope string_scope.
Open Scope list_scope.
Open Scope nat_scope.

(** ** Python values and outcomes *)

(** The exceptions the modelled code can raise. *)
Inductive exn := IndexError | KeyError | ValueError.

(** Outcome of running a piece of code: a value, a raised exception, or
    a loop that was still running when the iteration budget ran out. *)
Inductive result (A : Type) :=
  | Done (a : A)
  | Raise (e : exn)
  | OutOfFuel.
Arguments Done {A} a.
Arguments Raise {A} e.
Arguments OutOfFuel {A}.

Definition result_map {A B} (f : A → B) (r : result A) : result B :=
  match r with
  | Done a => Done (f a)
  | Raise e => Raise e
  | OutOfFuel => OutOfFuel
  end.

(** The values a widget or an [Any]-typed field holds. *)
Inductive pyval :=
  | VNone
  | VStr (s : string)
  | VInt (z : Z).

#[global] Instance pyval_eq_dec : EqDecision pyval.
Proof. solve_decision. Defined.

(** [str(n)] for an integer. *)
Definition str_of_Z (z : Z) : string := NilZero.string_of_int (Z.to_int z).

(** [str(v)]. *)
Definition py_str (v : pyval) : string :=
  match v with
  | VNone => "None"
  | VStr s => s
  | VInt z => str_of_Z z
  end.

(** [range(start, stop, step)] for a positive step, as the list it
    enumerates. *)
Definition py_range (start stop step : Z) : list Z :=
  (λ i : nat, start + Z.of_nat i * step)%Z <$>
    seq 0 (Z.to_nat ((stop - start + step - 1) / step)).

(** [sorted(l)] on integers. *)
Definition sorted (l : list Z) : list Z := merge_sort Z.le l.

(** ** The [random] module *)

(** The bit source under the module: [random.seed(n)] replaces the whole
    generator state, [getrandbits(k)] returns a [k]-bit integer and the
    next state. *)
Class PyRandom (S : Type) := {
  rng_seed : Z → S;
  getrandbits : nat → S → N * S;
}.

(** Code that draws random numbers: it reads the iteration budget of its
    loops and threads the generator state. *)
Definition M (S A : Type) : Type := nat → S → result (A * S).

Section Random.
Context {S : Type} `{PyRandom S}.

Definition ret {A} (a : A) : M S A := λ _ s, Done (a, s).

Definition bind {A B} (m : M S A) (f : A → M S B) : M S B :=
  λ fuel s,
    match m fuel s with
    | Done (a, s') => f a fuel s'
    | Raise e => Raise e
    | OutOfFuel => OutOfFuel
    end.

Definition raise {A} (e : exn) : M S A := λ _ _, Raise e.

(** [while r >= n: r = getrandbits(k)] *)
Fixpoint randbelow_loop (n : N) (k : nat) (r : N) (budget : nat) (s : S)
    : result (N * S) :=
  if (n <=? r)%N then
    match budget with
    | O => OutOfFuel
    | Datatypes.S budget' =>
        let '(r', s') := getrandbits k s in
        randbelow_loop n k r' budget' s'
    end
  else Done (r, s).

(** [Random._randbelow_with_getrandbits(n)], defined for [n > 0]. *)
Definition randbelow (n : nat) : M S nat :=
  λ fuel s,
    let k := N.size_nat (N.of_nat n) in
    let '(r, s1) := getrandbits k s in
    match randbelow_loop (N.of_nat n) k r fuel s1 with
    | Done (r', s2) => Done (N.to_nat r', s2)
    | Raise e => Raise e
    | OutOfFuel => OutOfFuel
    end.

(** [random.choice(seq)] *)
Definition choice {A} (seq : list A) : M S A :=
  match seq with
  | [] => raise IndexError
  | d :: _ => bind (randbelow (length seq)) (λ j, ret (nth j seq d))
  end.

(** [x[i], x[j] = x[j], x[i]] *)
Definition swap {A} (x : list A) (i j : nat) : list A :=
  match x !! i, x !! j with
  | Some xi, Some xj => <[j := xi]> (<[i := xj]> x)
  | _, _ => x
  end.

(** [for i in reversed(range(1, len(x))): j = randbelow(i + 1); swap]:
    the argument [i] counts down from [len(x) - 1]. *)
Fixpoint shuffle_loop {A} (i : nat) (x : list A) : M S (list A) :=
  match i with
  | O => ret x
  | Datatypes.S i' =>
      bind (randbelow (i + 1)) (λ j, shuffle_loop i' (swap x i j))
  end.

(** [random.shuffle(x)]; the shuffled list is returned, where Python
    mutates [x] in place. *)
Definition shuffle {A} (x : list A) : M S (list A) :=
  shuffle_loop (length x - 1) x.

(** The pool loop of [random.sample]:
    [for i in range(k): j = randbelow(n - i); result[i] = pool[j];
     pool[j] = pool[n - i - 1]]; the argument [m] is [n - i]. *)
Fixpoint sample_loop {A} (k m : nat) (pool : list A) : M S (list A) :=
  match k with
  | O => ret []
  | Datatypes.S k' =>
      bind (randbelow m) (λ j,
        match pool !! j, pool !! (m - 1) with
        | Some x, Some y =>
            bind (sample_loop k' (m - 1) (<[j := y]> pool))
                 (λ rest, ret (x :: rest))
        | _, _ => raise IndexError
        end)
  end.

(** [random.sample(population, k)] for a population of at most 21
    elements and [k <= 5], where CPython selects from a pool (the
    set-based branch for larger populations is not modelled; the
    source samples 3 of 9). *)
Definition sample {A} (population : list A) (k : nat) : M S (list A) :=
  if bool_decide (k ≤ length population)
  then sample_loop k (length population) population
  else raise ValueError.

(** [random.randint(a, b)]: [randrange(a, b + 1)], step 1. *)
Definition randint (a b : Z) : M S Z :=
  let width := (b + 1 - a)%Z in
  if bool_decide (0 < width)%Z
  then bind (randbelow (Z.to_nat width)) (λ r, ret (a + Z.of_nat r)%Z)
  else raise ValueError.

End Random.

Notation "x <- m ;; k" := (bind m (λ x, k))
  (at level 100, m at next level, right associativity,
   format "x  <-  m  ;;  '/' k").

(** ** The Mersenne Twister (MT19937), CPython's bit source *)

Module MT.

Record state := { mt : list N; index : nat }.

Definition u32 (x : N) : N := N.land x 0xffffffff.

(** [init_genrand]: [mt[i] = 1812433253 * (mt[i-1] ^ (mt[i-1] >> 30)) + i]. *)
Fixpoint init_genrand_loop (count : nat) (i : N) (prev : N) : list N :=
  match count with
  | O => []
  | S count' =>
      let x := u32 (1812433253 * N.lxor prev (N.shiftr prev 30) + i) in
      x :: init_genrand_loop count' (i + 1) x
  end.

Definition init_genrand (s : N) : list N :=
  u32 s :: init_genrand_loop 623 1 (u32 s).

(** First loop of [init_by_array]. *)
Fixpoint key_loop1 (k : nat) (key : list N) (i j : nat) (v : list N)
    : list N * nat :=
  match k with
  | O => (v, i)
  | S k' =>
      let p := v !!! (i - 1)%nat in
      let x := u32 (N.lxor (v !!! i) (N.lxor p (N.shiftr p 30) * 1664525)
                    + key !!! j + N.of_nat j) in
      let v := <[i := x]> v in
      let i := (i + 1)%nat in
      let j := (j + 1)%nat in
      let '(v, i) := if bool_decide (624 ≤ i)
                     then (<[0%nat := v !!! 623%nat]> v, 1%nat) else (v, i) in
      let j := if bool_decide (length key ≤ j) then 0%nat else j in
      key_loop1 k' key i j v
  end.

(** Second loop of [init_by_array]. *)
Fixpoint key_loop2 (k : nat) (i : nat) (v : list N) : list N :=
  match k with
  | O => v
  | S k' =>
      let p := v !!! (i - 1)%nat in
      let x := u32 (N.lxor (v !!! i) (N.lxor p (N.shiftr p 30) * 1566083941)
                    + 0x100000000 - N.of_nat i) in
      let v := <[i := x]> v in
      let i := (i + 1)%nat in
      let '(v, i) := if bool_decide (624 ≤ i)
                     then (<[0%nat := v !!! 623%nat]> v, 1%nat) else (v, i) in
      key_loop2 k' i v
  end.

Definition init_by_array (key : list N) : state :=
  let v := init_genrand 19650218 in
  let '(v, i) := key_loop1 (624 `max` length key) key 1 0 v in
  let v := key_loop2 623 i v in
  {| mt := <[0%nat := 0x80000000%N]> v; index := 624 |}.

(** The 32-bit words of a non-negative integer, least significant
    first; at least one word. *)
Fixpoint words_of (count : nat) (n : N) : list N :=
  match count with
  | O => []
  | S count' => u32 n :: words_of count' (N.shiftr n 32)
  end.

(** [random.seed(n)] for an integer: the key is [abs(n)]. *)
Definition seed (n : Z) : state :=
  let a := Z.to_N (Z.abs n) in
  let bits := N.size_nat a in
  init_by_array (words_of (if bits is O then 1 else (bits - 1) / 32 + 1) a).

(** One step of the regeneration of the 624 words. *)
Definition twist_at (v : list N) (kk : nat) : list N :=
  let y := N.lor (N.land (v !!! kk) 0x80000000)
                 (N.land (v !!! ((kk + 1) `mod` 624)%nat) 0x7fffffff) in
  let mag := if N.testbit y 0 then 0x9908b0df%N else 0%N in
  <[kk := N.lxor (N.lxor (v !!! ((kk + 397) `mod` 624)%nat) (N.shiftr y 1)) mag]> v.

Definition twist (v : list N) : list N := foldl twist_at v (seq 0 624).

Definition temper (y : N) : N :=
  let y := N.lxor y (N.shiftr y 11) in
  let y := N.lxor y (N.land (u32 (N.shiftl y 7)) 0x9d2c5680) in
  let y := N.lxor y (N.land (u32 (N.shiftl y 15)) 0xefc60000) in
  N.lxor y (N.shiftr y 18).

Definition genrand_uint32 (s : state) : N * state :=
  let '(v, i) := if bool_decide (624 ≤ index s)
                 then (twist (mt s), 0%nat) else (mt s, index s) in
  (temper (v !!! i), {| mt := v; index := i + 1 |}).

(** [getrandbits(k)]: words from the least significant one, the last
    one shifted down to the bits that remain. *)
Fixpoint getrandbits_words (words : nat) (k : nat) (s : state) : N * state :=
  match words with
  | O => (0%N, s)
  | S words' =>
      let '(r, s1) := genrand_uint32 s in
      if bool_decide (k ≤ 32) then (N.shiftr r (N.of_nat (32 - k)), s1)
      else
        let '(hi, s2) := getrandbits_words words' (k - 32) s1 in
        (N.lor r (N.shiftl hi 32), s2)
  end.

Definition getrandbits (k : nat) (s : state) : N * state :=
  getrandbits_words ((k + 31) / 32) k s.

End MT.

#[global] Instance MT_random : PyRandom MT.state :=
  {| rng_seed := MT.seed; getrandbits := MT.getrandbits |}.

(** ** Data model *)

#[global] Instance pyval_countable : Countable pyval.
Proof.
  refine (inj_countable'
    (λ v, match v with
          | VNone => inl ()
          | VStr s => inr (inl s)
          | VInt z => inr (inr z)
          end)
    (λ x, match x with
          | inl _ => VNone
          | inr (inl s) => VStr s
          | inr (inr z) => VInt z
          end) _).
  by intros [].
Defined.

(** [TOPICS]: display label and key. *)
Definition TOPICS : list (string * string) :=
  [ ("각의 합", "triangle_angle_sum");
    ("외각과 내각", "exterior_angle");
    ("삼각형의 분류", "triangle_types");
    ("합동조건", "congruence");
    ("닮음 기초", "similarity_basic") ].

(** [@dataclass class ObjItem]; [answer] is typed [Any]. *)
Module ObjItem.
Record t := make {
  id : string;
  topic : string;
  stem : string;
  choices : list string;
  answer : pyval;
  kind : string;
  points : Z;
}.
End ObjItem.

(** [@dataclass class PerfTask] *)
Module PerfTask.
Record t := make {
  id : string;
  topic : string;
  prompt : string;
  points : Z;
}.
End PerfTask.

(** ** Item generation (objective) *)

Section Generators.
Context {S : Type} `{PyRandom S}.

(** A [while] loop runs on the iteration budget of the computation. *)
Definition with_budget {A} (loop : nat → M S A) : M S A :=
  λ fuel s, loop fuel fuel s.

Definition out_of_fuel {A} : M S A := λ _ _, OutOfFuel.

(** [while a + b >= 170: a = choice(...); b = choice(...)] *)
Fixpoint angle_sum_loop (budget : nat) (a b : Z) : M S (Z * Z) :=
  if bool_decide (170 ≤ a + b)%Z then
    match budget with
    | O => out_of_fuel
    | Datatypes.S budget' =>
        a <- choice (py_range 20 121 5) ;;
        b <- choice (py_range 20 121 5) ;;
        angle_sum_loop budget' a b
    end
  else ret (a, b).

Definition angle_sum_stem (a b : Z) : string :=
  "삼각형의 두 내각이 " +:+ str_of_Z a +:+ "°, " +:+ str_of_Z b +:+
  "°일 때, 나머지 각의 크기는?".

Definition angle_sum_id (a b : Z) : string :=
  "AS-" +:+ str_of_Z a +:+ "-" +:+ str_of_Z b.

Definition gen_angle_sum_item : M S ObjItem.t :=
  a <- choice (py_range 20 121 5) ;;
  b <- choice (py_range 20 121 5) ;;
  ab <- with_budget (λ budget, angle_sum_loop budget a b) ;;
  let '(a, b) := ab in
  let c := (180 - (a + b))%Z in
  let stem := angle_sum_stem a b in
  choices <- shuffle [str_of_Z c; str_of_Z (c + 5); str_of_Z (c - 5);
                      str_of_Z (c + 10)] ;;
  ret {| ObjItem.id := angle_sum_id a b;
         ObjItem.topic := "triangle_angle_sum";
         ObjItem.stem := stem;
         ObjItem.choices := choices;
         ObjItem.answer := VStr (str_of_Z c);
         ObjItem.kind := "MCQ";
         ObjItem.points := 2 |}.

Definition gen_exterior_angle_item : M S ObjItem.t :=
  x <- choice (py_range 100 160 5) ;;
  a <- choice (py_range 20 70 5) ;;
  let b := (x - a)%Z in
  let stem :=
    "삼각형의 한 외각이 " +:+ str_of_Z x +:+
    "°이다. 원격 내각 중 하나가 " +:+ str_of_Z a +:+
    "°일 때, 다른 원격 내각의 크기는?" in
  choices <- shuffle [str_of_Z b; str_of_Z (b + 5); str_of_Z (b - 10);
                      str_of_Z (b + 15)] ;;
  ret {| ObjItem.id := "EX-" +:+ str_of_Z x +:+ "-" +:+ str_of_Z a;
         ObjItem.topic := "exterior_angle";
         ObjItem.stem := stem;
         ObjItem.choices := choices;
         ObjItem.answer := VStr (str_of_Z b);
         ObjItem.kind := "MCQ";
         ObjItem.points := 2 |}.

(** [a, b, c = ...]: unpacking a sequence into three names. *)
Definition unpack3 (l : list Z) : M S (Z * Z * Z) :=
  match l with
  | [a; b; c] => ret (a, b, c)
  | _ => raise ValueError
  end.

(** [while a + b <= c: a, b, c = sorted(random.sample(range(3, 12), 3))] *)
Fixpoint sides_loop (budget : nat) (abc : Z * Z * Z) : M S (Z * Z * Z) :=
  let '(a, b, c) := abc in
  if bool_decide (a + b ≤ c)%Z then
    match budget with
    | O => out_of_fuel
    | Datatypes.S budget' =>
        l <- sample (py_range 3 12 1) 3 ;;
        abc <- unpack3 (sorted l) ;;
        sides_loop budget' abc
    end
  else ret abc.

(** The [if a == b == c: ... elif a == b or b == c: ... else: ...]
    classification by sides. *)
Definition classify_sides (a b c : Z) : string :=
  if bool_decide (a = b) && bool_decide (b = c) then "정삼각형"
  else if bool_decide (a = b) || bool_decide (b = c) then "이등변삼각형"
  else "부등변삼각형".

(** The [if A == 90: ... elif A > 90: ... else: ...] classification by
    one angle. *)
Definition classify_angle (A : Z) : string :=
  if bool_decide (A = 90)%Z then "직각삼각형"
  else if bool_decide (90 < A)%Z then "둔각삼각형"
  else "예각삼각형".

Definition sides_stem (a b c : Z) : string :=
  "세 변의 길이가 " +:+ str_of_Z a +:+ ", " +:+ str_of_Z b +:+ ", " +:+
  str_of_Z c +:+ "인 삼각형의 분류는?".

(** The body of [if mode == "sides":] up to the assignment of
    [answer]: the sides, the stem, the choices and the answer. *)
Definition triangle_types_sides : M S (Z * Z * Z * (string * list string * string)) :=
  l <- sample (py_range 3 12 1) 3 ;;
  abc <- unpack3 (sorted l) ;;
  abc <- with_budget (λ budget, sides_loop budget abc) ;;
  let '(a, b, c) := abc in
  let t := classify_sides a b c in
  let stem := sides_stem a b c in
  let choices := ["정삼각형"; "이등변삼각형"; "직각삼각형"; "부등변삼각형"] in
  ret (a, b, c, (stem, choices, t)).

(** The body of the [else:] branch (classification by one angle). *)
Definition triangle_types_angles : M S (string * list string * string) :=
  A <- choice [30; 45; 60; 70; 80; 90; 100; 120]%Z ;;
  let t := classify_angle A in
  let stem := "어떤 삼각형의 한 각이 " +:+ str_of_Z A +:+
              "°이다. 이 삼각형의 분류는?" in
  let choices := ["예각삼각형"; "직각삼각형"; "둔각삼각형"; "정삼각형"] in
  ret (stem, choices, t).

Definition gen_triangle_types_item : M S ObjItem.t :=
  mode <- choice ["sides"; "angles"] ;;
  sca <- (if bool_decide (mode = "sides")
          then r <- triangle_types_sides ;; ret (snd r)
          else triangle_types_angles) ;;
  let '(stem, choices, answer) := sca in
  choices <- shuffle choices ;;
  n <- randint 1000 9999 ;;
  ret {| ObjItem.id := "TT-" +:+ str_of_Z n;
         ObjItem.topic := "triangle_types";
         ObjItem.stem := stem;
         ObjItem.choices := choices;
         ObjItem.answer := VStr answer;
         ObjItem.kind := "MCQ";
         ObjItem.points := 2 |}.

Definition congruence_options : list string :=
  ["SSS"; "SAS"; "ASA"; "AAS"; "HL(직각삼각형)"].

(** The stem of the "two angles and a side not between them" branch. *)
Definition stem_non_included : string :=
  "두 각과 그 사이에 있지 않은 한 변이 각각 같다. 합동 판단 근거는?".

(** The stem of the broader "two angles and one side" branch. *)
Definition stem_two_angles_one_side : string :=
  "두 각과 한 변이 각각 같다. 합동 판단 근거는?".

Definition gen_congruence_item : M S ObjItem.t :=
  let options := congruence_options in
  pattern <- choice (take 4 options) ;;
  sa <- (if bool_decide (pattern = "SSS") then
           ret ("두 삼각형에서 대응하는 세 변의 길이가 각각 같다. 합동 판단 근거는?",
                "SSS")
         else if bool_decide (pattern = "SAS") then
           ret ("두 변의 길이와 그 끼인각이 각각 같다. 합동 판단 근거는?", "SAS")
         else if bool_decide (pattern = "ASA") then
           ret (stem_non_included, "AAS")
         else
           ans <- choice ["ASA"; "AAS"] ;;
           ret (stem_two_angles_one_side, ans)) ;;
  let '(stem, ans) := sa in
  choices <- shuffle (take 4 options ++ ["판단 불가"]) ;;
  n <- randint 1000 9999 ;;
  ret {| ObjItem.id := "CG-" +:+ str_of_Z n;
         ObjItem.topic := "congruence";
         ObjItem.stem := stem;
         ObjItem.choices := choices;
         ObjItem.answer := VStr ans;
         ObjItem.kind := "MCQ";
         ObjItem.points := 2 |}.

Definition gen_similarity_item : M S ObjItem.t :=
  A <- choice [30; 40; 50; 60]%Z ;;
  B <- choice [40; 50; 60; 70]%Z ;;
  let stem := "두 삼각형의 두 각이 각각 " +:+ str_of_Z A +:+ "°, " +:+
              str_of_Z B +:+ "°로 같다. 닮음 판단이 가능한가?" in
  let answer := "가능(AA)" in
  choices <- shuffle ["가능(AA)"; "불가능"; "가능(SSS)"; "가능(SAS)"] ;;
  ret {| ObjItem.id := "SIM-" +:+ str_of_Z A +:+ "-" +:+ str_of_Z B;
         ObjItem.topic := "similarity_basic";
         ObjItem.stem := stem;
         ObjItem.choices := choices;
         ObjItem.answer := VStr answer;
         ObjItem.kind := "MCQ";
         ObjItem.points := 2 |}.

(** [GEN_FUNCS]: the dictionary from topic key to generator, as its
    lookup function. *)
Definition GEN_FUNCS (tk : string) : option (M S ObjItem.t) :=
  if bool_decide (tk = "triangle_angle_sum") then Some gen_angle_sum_item
  else if bool_decide (tk = "exterior_angle") then Some gen_exterior_angle_item
  else if bool_decide (tk = "triangle_types") then Some gen_triangle_types_item
  else if bool_decide (tk = "congruence") then Some gen_congruence_item
  else if bool_decide (tk = "similarity_basic") then Some gen_similarity_item
  else None.

(** [GEN_FUNCS[tk]()] *)
Definition call_gen (tk : string) : M S ObjItem.t :=
  match GEN_FUNCS tk with
  | Some g => g
  | None => raise KeyError
  end.

(** [topic_keys = [k for t, k in TOPICS if t in topics_selected]] *)
Definition topic_keys (topics_selected : list string) : list string :=
  snd <$> filter (λ tk, fst tk ∈ topics_selected) TOPICS.

(** [for i in range(n_items): tk = random.choice(topic_keys);
     items.append(GEN_FUNCS[tk]())] *)
Fixpoint generate_loop (n_items : nat) (keys : list string)
    : M S (list ObjItem.t) :=
  match n_items with
  | O => ret []
  | Datatypes.S n' =>
      tk <- choice keys ;;
      item <- call_gen tk ;;
      rest <- generate_loop n' keys ;;
      ret (item :: rest)
  end.

(** The batch run by the Generate button: [random.seed(int(seed))] and
    the loop; the item list is what the handler stores. *)
Definition generate (fuel : nat) (seed : Z) (n_items : nat)
    (topics_selected : list string) : result (list ObjItem.t * S) :=
  generate_loop n_items (topic_keys topics_selected) fuel (rng_seed seed).

End Generators.

(** ** Performance tasks and rubric *)

(** [RUBRIC_CRITERIA]: key and Korean label of each criterion. *)
Definition RUBRIC_CRITERIA : list (string * string) :=
  [ ("concept", "개념 이해");
    ("procedure", "절차/계산");
    ("reasoning", "추론/정당화");
    ("communication", "의사소통") ].

Definition PERF_BANK : list PerfTask.t :=
  [ {| PerfTask.id := "PT-1"; PerfTask.topic := "congruence";
       PerfTask.prompt :=
         "도형에서 △ABC와 △A'B'C'가 주어져 있다. 주어진 조건만으로 두 삼각형의 합동을 판단하고, " +:+
         "필요한 추가 조건이 있다면 제시하라. (조건·근거를 문장 혹은 기호로 서술)";
       PerfTask.points := 8 |};
    {| PerfTask.id := "PT-2"; PerfTask.topic := "exterior_angle";
       PerfTask.prompt :=
         "한 삼각형의 외각과 원격 내각의 관계를 이용해, 주어진 각도 정보를 바탕으로 미지수 x를 구하고, " +:+
         "이 과정에서 사용한 정리를 명확히 서술하라.";
       PerfTask.points := 8 |};
    {| PerfTask.id := "PT-3"; PerfTask.topic := "triangle_angle_sum";
       PerfTask.prompt :=
         "삼각형의 내각의 합이 180°임을 이용하여, 다각형의 내각의 합 공식을 유도하고 예시를 들어 설명하라.";
       PerfTask.points := 8 |} ].

(** ** Session state *)

(** A data frame, column by column: the label of each column and its
    cells. *)
Definition DataFrame : Type := list (string * list pyval).

Definition df_columns (df : DataFrame) : list string := fst <$> df.

(** A graded response, the value stored under [(student id, item id)]. *)
Module Response.
Record t := make {
  response : pyval;
  correct : bool;
  score : Z;
  answer : pyval;
  topic : string;
}.
End Response.

(** [st.session_state]: the four stores the script initialises and the
    values of the keyed widgets. *)
Record session := {
  students : DataFrame;
  quiz_items : list ObjItem.t;
  responses : gmap (pyval * string) Response.t;
  rubric_scores : gmap (pyval * string) (gmap string pyval);
  widgets : gmap string pyval;
}.

(** The process: the module-wide random generator and the session. *)
Record world (S : Type) := { rng : S; state : session }.
Arguments rng {S} w.
Arguments state {S} w.

(** The state at start-up: the three-row sample roster, empty stores. *)
Definition initial_session : session :=
  {| students := [ ("ID", [VStr "S001"; VStr "S002"; VStr "S003"]);
                   ("이름", [VStr "홍길동"; VStr "김영희"; VStr "이민호"]) ];
     quiz_items := [];
     responses := ∅;
     rubric_scores := ∅;
     widgets := ∅ |}.

(** ** Sidebar: the Generate button *)

Section Generate.
Context {S : Type} `{PyRandom S}.

Definition on_generate (fuel : nat) (seed : Z) (n_items : nat)
    (topics_selected : list string) (w : world S) : result (world S) :=
  match generate fuel seed n_items topics_selected with
  | Done (items, s) =>
      Done {| rng := s;
              state := {| students := students (state w);
                          quiz_items := items;
                          responses := responses (state w);
                          rubric_scores := rubric_scores (state w);
                          widgets := widgets (state w) |} |}
  | Raise e => Raise e
  | OutOfFuel => OutOfFuel
  end.

End Generate.

(** ** Student roster *)

(** [c.lower()] on one character: the ASCII capitals are mapped to small
    letters; every other byte (Hangul has no case) is kept. *)
Definition lower_ascii (c : ascii) : ascii :=
  let n := nat_of_ascii c in
  if bool_decide (65 ≤ n ∧ n ≤ 90) then ascii_of_nat (n + 32) else c.

Fixpoint py_lower (s : string) : string :=
  match s with
  | EmptyString => EmptyString
  | String c s' => String (lower_ascii c) (py_lower s')
  end.

(** [{c.lower(): c for c in df.columns}] *)
Definition cols_lower (df : DataFrame) : gmap string string :=
  foldl (λ m c, <[py_lower c := c]> m) ∅ (df_columns df).

(** The operand of [or] counts when it is neither [None] nor empty. *)
Definition truthy (o : option string) : option string :=
  match o with
  | Some s => if bool_decide (s = "") then None else Some s
  | None => None
  end.

(** [cols_lower.get(k1) or cols_lower.get(k2) or list(df.columns)[i]] *)
Definition pick_column (df : DataFrame) (k1 k2 : string) (i : nat)
    : result string :=
  match truthy (cols_lower df !! k1) with
  | Some c => Done c
  | None =>
      match truthy (cols_lower df !! k2) with
      | Some c => Done c
      | None =>
          match df_columns df !! i with
          | Some c => Done c
          | None => Raise IndexError
          end
      end
  end.

(** [df.rename(columns=mapping)] *)
Definition df_rename (mapping : gmap string string) (df : DataFrame)
    : DataFrame :=
  (λ col, (default (fst col) (mapping !! fst col), snd col)) <$> df.

(** [df[[l1, ..., ln]]]: the columns carrying each label, in the order
    of the labels; a label no column carries is a [KeyError]. *)
Fixpoint df_select (labels : list string) (df : DataFrame)
    : result DataFrame :=
  match labels with
  | [] => Done []
  | l :: labels' =>
      match filter (λ col, fst col = l) df with
      | [] => Raise KeyError
      | cols =>
          match df_select labels' df with
          | Done rest => Done (cols ++ rest)
          | Raise e => Raise e
          | OutOfFuel => OutOfFuel
          end
      end
  end.

(** The body of [if file is not None:] after [pd.read_csv]. *)
Definition load_roster (df : DataFrame) : result DataFrame :=
  match pick_column df "id" "학번" 0 with
  | Done id_col =>
      match pick_column df "이름" "name" 1 with
      | Done name_col =>
          df_select ["ID"; "이름"]
            (df_rename (<[name_col := "이름"]> {[id_col := "ID"]}) df)
      | Raise e => Raise e
      | OutOfFuel => OutOfFuel
      end
  | Raise e => Raise e
  | OutOfFuel => OutOfFuel
  end.

Definition on_upload (file : option DataFrame) (st : session)
    : result session :=
  match file with
  | None => Done st
  | Some df =>
      match load_roster df with
      | Done df' =>
          Done {| students := df';
                  quiz_items := quiz_items st;
                  responses := responses st;
                  rubric_scores := rubric_scores st;
                  widgets := widgets st |}
      | Raise e => Raise e
      | OutOfFuel => OutOfFuel
      end
  end.

(** ** Quiz conduct and auto-grading *)

(** [key = f"resp_{item.id}"] *)
Definition resp_key (item : ObjItem.t) : string := "resp_" +:+ ObjItem.id item.

(** [st.session_state.get(key)] *)
Definition stored_response (st : session) (item : ObjItem.t) : pyval :=
  default VNone (widgets st !! resp_key item).

(** One turn of [for item in st.session_state.quiz_items:]; the state of
    the loop is [total], [max_total] and the response store. *)
Definition grade_item (sid : pyval) (st : session)
    (acc : Z * Z * gmap (pyval * string) Response.t) (item : ObjItem.t)
    : Z * Z * gmap (pyval * string) Response.t :=
  let '(total, max_total, store) := acc in
  let resp := stored_response st item in
  let correct := bool_decide (py_str resp = py_str (ObjItem.answer item)) in
  let score := if correct then ObjItem.points item else 0%Z in
  let max_total := (max_total + ObjItem.points item)%Z in
  let total := (total + score)%Z in
  (total, max_total,
   <[(sid, ObjItem.id item) :=
       {| Response.response := resp;
          Response.correct := correct;
          Response.score := score;
          Response.answer := ObjItem.answer item;
          Response.topic := ObjItem.topic item |}]> store).

(** The Auto-grade button for the student [sid]: the new session and
    the reported [(total, max_total)]; without a quiz the button is not
    shown and nothing happens. *)
Definition on_autograde (sid : pyval) (st : session)
    : session * option (Z * Z) :=
  match quiz_items st with
  | [] => (st, None)
  | items =>
      let '(total, max_total, store) :=
        foldl (grade_item sid st) (0%Z, 0%Z, responses st) items in
      ({| students := students st;
          quiz_items := quiz_items st;
          responses := store;
          rubric_scores := rubric_scores st;
          widgets := widgets st |},
       Some (total, max_total))
  end.

(** The sum of the point values of the items. *)
Definition sum_points (items : list ObjItem.t) : Z :=
  foldr (λ item acc, (ObjItem.points item + acc)%Z) 0%Z items.

(** ** Performance tasks with rubric *)

(** [for crit in RUBRIC_CRITERIA: rubric_levels[crit["key"]] = slider];
    [levels] gives the value of the slider of each criterion. *)
Definition rubric_levels (levels : string → Z) : gmap string pyval :=
  foldl (λ m crit, <[fst crit := VInt (levels (fst crit))]> m) ∅ RUBRIC_CRITERIA.

(** [{**rubric_levels, "notes": notes, "task_points": task_obj.points}] *)
Definition rubric_record (levels : string → Z) (notes : string)
    (task_obj : PerfTask.t) : gmap string pyval :=
  <["task_points" := VInt (PerfTask.points task_obj)]>
    (<["notes" := VStr notes]> (rubric_levels levels)).

(** The rubric save button. *)
Definition on_rubric_save (sid2 : pyval) (task_obj : PerfTask.t)
    (levels : string → Z) (notes : string) (st : session) : session :=
  {| students := students st;
     quiz_items := quiz_items st;
     responses := responses st;
     rubric_scores :=
       <[(sid2, PerfTask.id task_obj) := rubric_record levels notes task_obj]>
         (rubric_scores st);
     widgets := widgets st |}.

(** The records stored under one key, as the list of its entries. *)
Definition records_at (key : pyval * string)
    (store : gmap (pyval * string) (gmap string pyval))
    : list (pyval * string * gmap string pyval) :=
  map_to_list (filter (λ kv, fst kv = key) store).

(** ** Notions used in the statements *)

(** A run that finishes finishes the same way on any larger iteration
    budget. *)
Definition fuel_mono (S : Type) {A : Type} (m : M S A) : Prop :=
  ∀ f f' s r, f ≤ f' → m f s = Done r → m f' s = Done r.

(** A multiple-choice item is well formed when its choice list is not
    empty and holds its canonical answer. *)
Definition mcq_ok (item : ObjItem.t) : Prop :=
  ObjItem.kind item = "MCQ" →
  ObjItem.choices item ≠ [] ∧
  ∃ a, ObjItem.answer item = VStr a ∧ a ∈ ObjItem.choices item.

(** The record the grading loop stores for an item. *)
Definition graded (st : session) (item : ObjItem.t) : Response.t :=
  let resp := stored_response st item in
  let correct := bool_decide (py_str resp = py_str (ObjItem.answer item)) in
  {| Response.response := resp;
     Response.correct := correct;
     Response.score := if correct then ObjItem.points item else 0%Z;
     Response.answer := ObjItem.answer item;
     Response.topic := ObjItem.topic item |}.

(** The scores the grading loop adds up. *)
Definition earned (st : session) (items : list ObjItem.t) : Z :=
  foldr (λ item acc, (Response.score (graded st item) + acc)%Z) 0%Z items.

(** The store after the grading loop. *)
Definition graded_store (sid : pyval) (st : session)
    (store : gmap (pyval * string) Response.t) (items : list ObjItem.t)
    : gmap (pyval * string) Response.t :=
  foldl (λ m item, <[(sid, ObjItem.id item) := graded st item]> m) store items.

(** The four header names the upload handler looks for. *)
Definition roster_headers : list string := ["id"; "학번"; "이름"; "name"].

(** No column of the table carries, up to case, one of the four
    headers. *)
Definition headers_missing (df : DataFrame) : Prop :=
  ∀ c, c ∈ df_columns df → py_lower c ∉ roster_headers.

(** A session with a two-item quiz whose widgets hold the canonical
    answers, one of them as the integer a number input returns. *)
Definition answered_session : session :=
  {| students := students initial_session;
     quiz_items :=
       [ {| ObjItem.id := "AS-20-60"; ObjItem.topic := "triangle_angle_sum";
            ObjItem.stem := "삼각형의 두 내각이 20°, 60°일 때, 나머지 각의 크기는?";
            ObjItem.choices := ["110"; "95"; "100"; "105"];
            ObjItem.answer := VStr "100"; ObjItem.kind := "MCQ";
            ObjItem.points := 2 |};
         {| ObjItem.id := "SIM-60-50"; ObjItem.topic := "similarity_basic";
            ObjItem.stem := "두 삼각형의 두 각이 각각 60°, 50°로 같다. 닮음 판단이 가능한가?";
            ObjItem.choices := ["가능(AA)"; "불가능"; "가능(SSS)"; "가능(SAS)"];
            ObjItem.answer := VStr "가능(AA)"; ObjItem.kind := "MCQ";
            ObjItem.points := 2 |} ];
     responses := ∅;
     rubric_scores := ∅;
     widgets := {[ "resp_AS-20-60" := VInt 100;
                   "resp_SIM-60-50" := VStr "가능(AA)" ]} |}.

(** ** Display of a saved rubric *)

(** The exceptions of the rubric display: a missing criterion key, a
    level that is not a number. *)
Inductive display_exn := DisplayKeyError | DisplayTypeError.

(** [existing[key]] *)
Definition rec_get (existing : gmap string pyval) (key : string)
    : display_exn + pyval :=
  match existing !! key with
  | Some v => inr v
  | None => inl DisplayKeyError
  end.

(** [[{"기준": c["kr"], "수준(1-4)": existing[c["key"]]} for c in criteria]] *)
Fixpoint rubric_rows (existing : gmap string pyval)
    (criteria : list (string * string)) : display_exn + list (string * pyval) :=
  match criteria with
  | [] => inr []
  | c :: criteria' =>
      match rec_get existing (fst c) with
      | inl e => inl e
      | inr v =>
          match rubric_rows existing criteria' with
          | inl e => inl e
          | inr rows => inr ((snd c, v) :: rows)
          end
      end
  end.

(** [sum(existing[c["key"]] for c in criteria)], from the accumulator
    [acc]; only integers add up. *)
Fixpoint rubric_sum (existing : gmap string pyval)
    (criteria : list (string * string)) (acc : Z) : display_exn + Z :=
  match criteria with
  | [] => inr acc
  | c :: criteria' =>
      match rec_get existing (fst c) with
      | inl e => inl e
      | inr (VInt z) => rubric_sum existing criteria' (acc + z)%Z
      | inr _ => inl DisplayTypeError
      end
  end.

(** The panel beside the save button: nothing without a record (or
    with an empty one); else one row per criterion, the row of the sum,
    and the caption with the notes. *)
Definition rubric_display (sid2 : pyval) (task_obj : PerfTask.t) (st : session)
    : display_exn + option (list (string * pyval) * string) :=
  match rubric_scores st !! (sid2, PerfTask.id task_obj) with
  | None => inr None
  | Some existing =>
      if bool_decide (existing = ∅) then inr None
      else
        match rubric_rows existing RUBRIC_CRITERIA with
        | inl e => inl e
        | inr rows =>
            match rubric_sum existing RUBRIC_CRITERIA 0 with
            | inl e => inl e
            | inr total =>
                inr (Some (rows ++ [("합계(가중치=1)", VInt total)],
                           "메모: " +:+
                           py_str (default (VStr "") (existing !! "notes"))))
            end
        end
  end.

(** ** Session snapshot *)

(** [f"{k[0]}::{k[1]}"], the key of a record in the snapshot. *)
Definition snapshot_key (k : pyval * string) : string :=
  py_str (fst k) +:+ "::" +:+ snd k.

(** [{f"{k[0]}::{k[1]}": v for k, v in store.items()}], over the items
    of the store in their order. *)
Definition snapshot_items {V : Type} (items : list (pyval * string * V))
    : gmap string V :=
  foldl (λ m kv, <[snapshot_key (fst kv) := snd kv]> m) ∅ items.

(** The string holds no colon. *)
Fixpoint no_colon (s : string) : bool :=
  match s with
  | EmptyString => true
  | String c s' => negb (Ascii.eqb c ":"%char) && no_colon s'
  end.


(** ** Shape of an item *)

(** What every generator fixes: the topic, the kind, the points, and a
    choice list without repetition of the stated length. *)
Definition item_shape (tk : string) (n_choices : nat) (item : ObjItem.t) : Prop :=
  ObjItem.topic item = tk ∧ ObjItem.kind item = "MCQ" ∧
  ObjItem.points item = 2%Z ∧
  NoDup (ObjItem.choices item) ∧ length (ObjItem.choices item) = n_choices.

(** * Properties *)

Create HintDb fuel_mono discriminated.

#[global] Arguments randbelow : simpl never.
#[global] Arguments choice : simpl never.
#[global] Arguments shuffle : simpl never.
#[global] Arguments sample : simpl never.
#[global] Arguments randint : simpl never.
#[global] Arguments py_range : simpl never.
#[global] Arguments sorted : simpl never.

(** ** Reasoning about runs *)

Section RunLemmas.
Context {S : Type} `{PyRandom S}.

Lemma bind_Done {A B} (m : M S A) (f : A → M S B) fuel s b s' :
  bind m f fuel s = Done (b, s') →
  ∃ a s1, m fuel s = Done (a, s1) ∧ f a fuel s1 = Done (b, s').
Proof.
  unfold bind. destruct (m fuel s) as [[a s1]| |]; [|done..].
  intros Hf. by exists a, s1.
Qed.

Lemma ret_Done {A} (a b : A) fuel (s s' : S) :
  ret a fuel s = Done (b, s') → a = b ∧ s = s'.
Proof. unfold ret. by intros [= -> ->]. Qed.

Lemma randbelow_loop_lt n k r budget s r' s' :
  randbelow_loop n k r budget s = Done (r', s') → (r' < n)%N.
Proof.
  revert r s. induction budget as [|budget IH]; intros r s; simpl.
  - destruct (N.leb_spec n r); [done|]. by intros [= <- _].
  - destruct (N.leb_spec n r).
    + destruct (getrandbits k s) as [r1 s1]. apply IH.
    + by intros [= <- _].
Qed.

Lemma randbelow_lt n fuel s j s' :
  randbelow n fuel s = Done (j, s') → j < n.
Proof.
  unfold randbelow. destruct (getrandbits _ s) as [r s1].
  destruct (randbelow_loop _ _ r fuel s1) as [[r' s2]| |] eqn:Hloop; [|done..].
  intros [= <- _]. apply randbelow_loop_lt in Hloop. lia.
Qed.

Lemma choice_elem_of {A} (l : list A) fuel s x s' :
  choice l fuel s = Done (x, s') → x ∈ l.
Proof.
  destruct l as [|d l]; [done|]. unfold choice.
  intros (j & s1 & Hj & Hret)%bind_Done.
  apply ret_Done in Hret as [<- _]. apply randbelow_lt in Hj.
  apply list_elem_of_In, nth_In. done.
Qed.

Lemma swap_length {A} (x : list A) i j : length (swap x i j) = length x.
Proof.
  unfold swap. destruct (x !! i), (x !! j); by rewrite ?length_insert.
Qed.

Lemma swap_lookup {A} (x : list A) i j k :
  i < length x → j < length x →
  swap x i j !! k =
    if decide (k = j) then x !! i else if decide (k = i) then x !! j else x !! k.
Proof.
  intros Hi Hj. unfold swap.
  destruct (lookup_lt_is_Some_2 x i Hi) as [xi Hxi].
  destruct (lookup_lt_is_Some_2 x j Hj) as [xj Hxj].
  rewrite Hxi, Hxj.
  destruct (decide (k = j)) as [->|Hkj].
  - rewrite list_lookup_insert_eq; [done|]. by rewrite length_insert.
  - rewrite list_lookup_insert_ne by done.
    destruct (decide (k = i)) as [->|Hki].
    + by rewrite list_lookup_insert_eq.
    + by rewrite list_lookup_insert_ne.
Qed.

Lemma swap_elem_of {A} (x : list A) i j a :
  i < length x → j < length x → a ∈ swap x i j ↔ a ∈ x.
Proof.
  intros Hi Hj. rewrite !list_elem_of_lookup. split.
  - intros [k Hk]. rewrite swap_lookup in Hk by done.
    repeat case_decide; eauto.
  - intros [k Hk].
    destruct (decide (k = i)) as [->|Hki].
    + exists j. rewrite swap_lookup by done. by rewrite decide_True.
    + destruct (decide (k = j)) as [->|Hkj].
      * exists i. rewrite swap_lookup by done.
        case_decide; [by subst|]. by rewrite decide_True.
      * exists k. rewrite swap_lookup by done.
        by rewrite !decide_False.
Qed.

Lemma shuffle_loop_Done {A} i (x : list A) fuel s x' s' :
  i < length x →
  shuffle_loop i x fuel s = Done (x', s') →
  length x' = length x ∧ ∀ a, a ∈ x' ↔ a ∈ x.
Proof.
  revert x s. induction i as [|i IH]; intros x s Hi; simpl.
  - by intros [<- _]%ret_Done.
  - intros (j & s1 & Hj%randbelow_lt & Hrest)%bind_Done.
    apply IH in Hrest as [Hlen Hin]; [|rewrite swap_length; lia].
    rewrite swap_length in Hlen. split; [done|].
    intros a. rewrite Hin. apply swap_elem_of; lia.
Qed.

Lemma shuffle_Done {A} (x : list A) fuel s x' s' :
  shuffle x fuel s = Done (x', s') →
  length x' = length x ∧ ∀ a, a ∈ x' ↔ a ∈ x.
Proof.
  unfold shuffle. destruct x as [|a0 x].
  - by intros [<- _]%ret_Done.
  - apply shuffle_loop_Done. simpl. lia.
Qed.

Lemma randint_Done a b fuel s n s' :
  randint a b fuel s = Done (n, s') → (a ≤ n ≤ b)%Z.
Proof.
  unfold randint. case_bool_decide; [|done].
  intros (r & s1 & Hr%randbelow_lt & [<- _]%ret_Done)%bind_Done. lia.
Qed.

End RunLemmas.

Section SampleLemmas.
Context {S : Type} `{PyRandom S}.

(** Overwriting one element of a duplicate-free list by a fresh one
    keeps it duplicate-free and drops the element overwritten. *)
Lemma NoDup_insert_fresh {A} (l : list A) j x y :
  l !! j = Some x → NoDup l → y ∉ l →
  NoDup (<[j := y]> l) ∧ (x ∉ <[j := y]> l) ∧
  ∀ a, a ∈ (<[j := y]> l) → a ∈ l ∨ a = y.
Proof.
  intros Hj Hnd Hy.
  pose proof (lookup_lt_Some _ _ _ Hj) as Hlt.
  rewrite insert_take_drop by done.
  rewrite <- (take_drop_middle l j x Hj) in Hnd, Hy.
  apply NoDup_app in Hnd as (Hnd1 & Hdisj & Hnd2).
  apply NoDup_cons in Hnd2 as [Hx2 Hnd2].
  rewrite elem_of_app, elem_of_cons in Hy.
  split; [|split].
  - apply NoDup_app. split; [done|]. split.
    + intros a Ha [->|Ha2]%elem_of_cons; [tauto|].
      apply (Hdisj a Ha). by right.
    + apply NoDup_cons. split; [tauto|done].
  - rewrite elem_of_app, elem_of_cons. intros [Hx1|[->|Hx]].
    + apply (Hdisj x Hx1). by left.
    + tauto.
    + done.
  - intros a. rewrite elem_of_app, elem_of_cons.
    intros [Ha|[->|Ha]]; [left|by right|left].
    + by apply (subseteq_take j l).
    + by apply (subseteq_drop (Datatypes.S j) l).
Qed.

Lemma sample_loop_NoDup {A} k m (pool : list A) fuel s res s' :
  m ≤ length pool → NoDup (take m pool) →
  sample_loop k m pool fuel s = Done (res, s') →
  NoDup res ∧ length res = k ∧ ∀ a, a ∈ res → a ∈ take m pool.
Proof.
  revert m pool s res s'. induction k as [|k IH]; intros m pool s res s' Hm Hnd; simpl.
  - intros [<- _]%ret_Done. split; [constructor|]. split; [done|].
    by intros a ?%elem_of_nil.
  - intros (j & s1 & Hj%randbelow_lt & Hrest)%bind_Done.
    destruct (pool !! j) as [x|] eqn:Hx; [|done].
    destruct (pool !! (m - 1)) as [y|] eqn:Hy; [|done].
    apply bind_Done in Hrest as (rest & s2 & Hrest & [<- _]%ret_Done).
    assert (Htake : take m pool = take (m - 1) pool ++ [y]).
    { replace m with (Datatypes.S (m - 1)) at 1 by lia.
      by apply take_S_r. }
    rewrite Htake in Hnd. apply NoDup_app in Hnd as (Hnd1 & Hfresh & _).
    assert (Hynot : y ∉ take (m - 1) pool).
    { intros Hin. apply (Hfresh y Hin). by left. }
    assert (Hstep : NoDup (take (m - 1) (<[j := y]> pool)) ∧
                    (x ∉ take (m - 1) (<[j := y]> pool)) ∧
                    ∀ a, a ∈ take (m - 1) (<[j := y]> pool) → a ∈ take m pool).
    { destruct (decide (j = m - 1)) as [->|Hne].
      - rewrite take_insert_ge by lia.
        assert (x = y) as -> by congruence.
        split; [done|]. split; [done|].
        intros a Ha. rewrite Htake. apply elem_of_app. by left.
      - rewrite take_insert_lt by lia.
        assert (Hxj : take (m - 1) pool !! j = Some x).
        { rewrite lookup_take_lt by lia. done. }
        destruct (NoDup_insert_fresh _ _ _ _ Hxj Hnd1 Hynot) as (? & ? & Hsub).
        split; [done|]. split; [done|].
        intros a [Ha| ->]%Hsub; rewrite Htake, elem_of_app; [by left|].
        right. by left. }
    destruct Hstep as (Hnd' & Hxnot & Hsub).
    apply IH in Hrest as (Hndr & Hlen & Hin); [|rewrite length_insert; lia|done].
    split; [|split].
    + apply NoDup_cons. split; [|done]. intros Hxr. by apply Hxnot, Hin.
    + simpl. by rewrite Hlen.
    + intros a [->|Ha]%elem_of_cons.
      * apply elem_of_take. exists j. split; [done|lia].
      * by apply Hsub, Hin.
Qed.

Lemma sample_Done {A} (population : list A) k fuel s res s' :
  NoDup population →
  sample population k fuel s = Done (res, s') →
  NoDup res ∧ length res = k ∧ ∀ a, a ∈ res → a ∈ population.
Proof.
  intros Hnd. unfold sample. case_bool_decide; [|done].
  intros Hs. apply sample_loop_NoDup in Hs; [|done|by rewrite firstn_all].
  by rewrite firstn_all in Hs.
Qed.

(** Three distinct integers come out of [sorted] strictly increasing. *)
Lemma sorted_unpack3 (l : list Z) (a b c : Z) :
  NoDup l → sorted l = [a; b; c] →
  (a < b < c)%Z ∧ ∀ x, x ∈ [a; b; c] → x ∈ l.
Proof.
  intros Hnd Hs.
  pose proof (merge_sort_Permutation Z.le l) as Hperm.
  pose proof (Sorted_merge_sort Z.le l) as Hsorted.
  fold (sorted l) in Hperm, Hsorted. rewrite Hs in Hperm, Hsorted.
  rewrite <- Hperm in Hnd.
  apply NoDup_cons in Hnd as [Hab Hnd]. apply NoDup_cons in Hnd as [Hbc _].
  apply Sorted_inv in Hsorted as [Hsorted Hle1].
  apply Sorted_inv in Hsorted as [_ Hle2].
  apply HdRel_inv in Hle1. apply HdRel_inv in Hle2.
  split.
  - assert (a ≠ b) by (intros ->; apply Hab; by left).
    assert (b ≠ c) by (intros ->; apply Hbc; by left).
    lia.
  - intros x Hx. by rewrite <- Hperm.
Qed.

End SampleLemmas.

(** ** Item generators *)

(** [run_bind H as a Ha] splits a run [H] of [x <- m ;; k] into the run
    [Ha] of [m], with value [a], and the run [H] of [k]. *)
Tactic Notation "run_bind" hyp(H) "as" simple_intropattern(a) ident(Ha) :=
  apply bind_Done in H as (a & ? & Ha & H).

Lemma sides_population_NoDup : NoDup (py_range 3 12 1).
Proof. apply (bool_decide_unpack _). vm_compute. exact I. Qed.

Section GeneratorLemmas.
Context {S : Type} `{PyRandom S}.

Lemma angle_sum_loop_Done budget a b fuel (s : S) a' b' s' :
  a ∈ py_range 20 121 5 → b ∈ py_range 20 121 5 →
  angle_sum_loop budget a b fuel s = Done ((a', b'), s') →
  a' ∈ py_range 20 121 5 ∧ b' ∈ py_range 20 121 5 ∧ (a' + b' < 170)%Z.
Proof.
  revert a b s. induction budget as [|budget IH]; intros a b s Ha Hb; simpl.
  - case_bool_decide; [done|]. intros [[= <- <-] _]%ret_Done. split_and!; [done..|lia].
  - case_bool_decide.
    + intros Hrun. run_bind Hrun as a1 Ha1. run_bind Hrun as b1 Hb1.
      eapply IH; [| |done]; by eapply choice_elem_of.
    + intros [[= <- <-] _]%ret_Done. split_and!; [done..|lia].
Qed.

Lemma unpack3_sorted_Done (l : list Z) fuel (s : S) abc s' :
  NoDup l → unpack3 (sorted l) fuel s = Done (abc, s') →
  (abc.1.1 < abc.1.2 < abc.2)%Z.
Proof.
  intros Hnd. unfold unpack3.
  destruct (sorted l) as [|x1 [|x2 [|x3 [|]]]] eqn:Hsorted; try done.
  intros [<- _]%ret_Done. simpl.
  by apply sorted_unpack3 in Hsorted as [Hsorted _].
Qed.

Lemma sides_loop_Done budget abc fuel (s : S) a b c s' :
  (abc.1.1 < abc.1.2 < abc.2)%Z →
  sides_loop budget abc fuel s = Done ((a, b, c), s') →
  (a < b < c)%Z ∧ (c < a + b)%Z.
Proof.
  revert abc s. induction budget as [|budget IH]; intros [[a0 b0] c0] s Hlt; simpl in *.
  - case_bool_decide; [done|]. intros [[= <- <- <-] _]%ret_Done. lia.
  - case_bool_decide.
    + intros Hrun. run_bind Hrun as l Hl. run_bind Hrun as abc Habc.
      apply sample_Done in Hl as (Hnd & Hlen & _);
        [|apply sides_population_NoDup].
      apply unpack3_sorted_Done in Habc; [|done].
      by eapply IH.
    + intros [[= <- <- <-] _]%ret_Done. lia.
Qed.

Lemma triangle_types_sides_Done fuel (s : S) a b c stem choices answer s' :
  triangle_types_sides fuel s = Done ((a, b, c, (stem, choices, answer)), s') →
  (a < b < c)%Z ∧ (c < a + b)%Z ∧ stem = sides_stem a b c ∧
  choices = ["정삼각형"; "이등변삼각형"; "직각삼각형"; "부등변삼각형"] ∧
  answer = "부등변삼각형".
Proof.
  unfold triangle_types_sides. intros Hrun.
  run_bind Hrun as l Hl. run_bind Hrun as abc Habc.
  run_bind Hrun as [[a' b'] c'] Hloop.
  apply sample_Done in Hl as (Hnd & Hlen & _);
    [|apply sides_population_NoDup].
  apply unpack3_sorted_Done in Habc; [|done].
  apply sides_loop_Done in Hloop as [Hlt Htri]; [|done].
  apply ret_Done in Hrun as [[= <- <- <- <- <- <-] _].
  split_and!; [lia..|done|done|].
  unfold classify_sides.
  rewrite !bool_decide_eq_false_2 by lia. done.
Qed.

End GeneratorLemmas.

(** C1. Every item the angle-sum generator produces is built from two
    angles of the sampled range [range(20, 121, 5)] whose sum is at most
    169, and its canonical answer is the string of 180 minus their
    sum. *)
Theorem gen_angle_sum_item_sound {S : Type} `{PyRandom S} fuel (s : S) item s' :
  gen_angle_sum_item fuel s = Done (item, s') →
  ∃ a b : Z,
    a ∈ py_range 20 121 5 ∧ b ∈ py_range 20 121 5 ∧
    (a + b ≤ 169)%Z ∧
    ObjItem.id item = angle_sum_id a b ∧
    ObjItem.stem item = angle_sum_stem a b ∧
    ObjItem.answer item = VStr (str_of_Z (180 - (a + b))).
Proof.
  unfold gen_angle_sum_item. intros Hrun.
  run_bind Hrun as a0 Ha0. run_bind Hrun as b0 Hb0.
  run_bind Hrun as [a' b'] Hloop.
  apply choice_elem_of in Ha0, Hb0.
  apply angle_sum_loop_Done in Hloop as (Ha & Hb & Hsum); [|done..].
  run_bind Hrun as choices Hshuffle.
  apply ret_Done in Hrun as [<- _]. simpl.
  exists a', b'. split_and!; [done|done|lia|done..].
Qed.

Lemma gen_angle_sum_item_sound_witness :
  ∃ item s', gen_angle_sum_item 100 (MT.seed 42) = Done (item, s') ∧
  ∃ a b : Z,
    a ∈ py_range 20 121 5 ∧ b ∈ py_range 20 121 5 ∧
    (a + b ≤ 169)%Z ∧
    ObjItem.id item = angle_sum_id a b ∧
    ObjItem.stem item = angle_sum_stem a b ∧
    ObjItem.answer item = VStr (str_of_Z (180 - (a + b))).
Proof.
  eexists _, _. split.
  - vm_compute. reflexivity.
  - eapply (gen_angle_sum_item_sound 100 (MT.seed 42)). vm_compute. reflexivity.
Defined.

(** C10. Every item of the similarity generator carries the constant
    canonical answer ["가능(AA)"], whatever the two sampled angles are. *)
Theorem gen_similarity_item_answer {S : Type} `{PyRandom S} fuel (s : S) item s' :
  gen_similarity_item fuel s = Done (item, s') →
  ObjItem.answer item = VStr "가능(AA)".
Proof.
  unfold gen_similarity_item. intros Hrun.
  run_bind Hrun as A HA. run_bind Hrun as B HB.
  run_bind Hrun as choices Hshuffle.
  by apply ret_Done in Hrun as [<- _].
Qed.

Lemma gen_similarity_item_answer_witness :
  ∃ item s', gen_similarity_item 100 (MT.seed 42) = Done (item, s') ∧
             ObjItem.answer item = VStr "가능(AA)".
Proof.
  eexists _, _. split.
  - vm_compute. reflexivity.
  - eapply (gen_similarity_item_answer 100 (MT.seed 42)). vm_compute. reflexivity.
Defined.

Section Congruence.
Context {S : Type} `{PyRandom S}.

(** The stem and the answer of an item of the congruence generator,
    branch by branch. *)
Lemma gen_congruence_item_Done fuel (s : S) item s' :
  gen_congruence_item fuel s = Done (item, s') →
  (ObjItem.stem item = stem_non_included ∧ ObjItem.answer item = VStr "AAS") ∨
  (ObjItem.stem item = stem_two_angles_one_side ∧
   (ObjItem.answer item = VStr "ASA" ∨ ObjItem.answer item = VStr "AAS")) ∨
  (ObjItem.stem item ≠ stem_non_included ∧
   ObjItem.stem item ≠ stem_two_angles_one_side).
Proof.
  unfold gen_congruence_item. intros Hrun.
  run_bind Hrun as pattern Hpattern. run_bind Hrun as [stem ans] Hbranch.
  run_bind Hrun as choices Hshuffle. run_bind Hrun as n Hn.
  apply ret_Done in Hrun as [<- _]. simpl.
  repeat case_bool_decide.
  - apply ret_Done in Hbranch as [[= <- <-] _]. right. right. done.
  - apply ret_Done in Hbranch as [[= <- <-] _]. right. right. done.
  - apply ret_Done in Hbranch as [[= <- <-] _]. by left.
  - run_bind Hbranch as ans' Hans.
    apply ret_Done in Hbranch as [[= <- <-] _].
    apply choice_elem_of in Hans. right. left. split; [done|].
    apply elem_of_cons in Hans as [->|Hans]; [by left|].
    apply elem_of_cons in Hans as [->|Hans]; [by right|].
    by apply elem_of_nil in Hans.
Qed.

End Congruence.

(** C3, as stated, fails: no bit source and no draw make the congruence
    generator return the stem of the non-included side with the
    canonical answer ["ASA"]. *)
Lemma congruence_non_included_never_ASA :
  ¬ ∃ (S : Type) (R : PyRandom S) (fuel : nat) (s : S) item s',
      gen_congruence_item fuel s = Done (item, s') ∧
      ObjItem.stem item = stem_non_included ∧
      ObjItem.answer item = VStr "ASA".
Proof.
  intros (S & R & fuel & s & item & s' & Hrun & Hstem & Hans).
  apply gen_congruence_item_Done in Hrun as [[_ Haas]|[[Hbroad _]|[Hne _]]].
  - congruence.
  - rewrite Hstem in Hbroad. done.
  - done.
Qed.

(** C3, amended. Under the stem of the non-included side the canonical
    answer is always ["AAS"]; under the broader stem "two angles and one
    side" it is ["ASA"] or ["AAS"], and each of the two occurs under
    some draw (seeds 24 and 0 of the Mersenne Twister). *)
Theorem gen_congruence_item_two_angles :
  (∀ (S : Type) (R : PyRandom S) (fuel : nat) (s : S) item s',
     gen_congruence_item fuel s = Done (item, s') →
     (ObjItem.stem item = stem_non_included → ObjItem.answer item = VStr "AAS") ∧
     (ObjItem.stem item = stem_two_angles_one_side →
      ObjItem.answer item = VStr "ASA" ∨ ObjItem.answer item = VStr "AAS")) ∧
  (∃ item s', gen_congruence_item 100 (MT.seed 24) = Done (item, s') ∧
     ObjItem.stem item = stem_two_angles_one_side ∧
     ObjItem.answer item = VStr "ASA") ∧
  (∃ item s', gen_congruence_item 100 (MT.seed 0) = Done (item, s') ∧
     ObjItem.stem item = stem_two_angles_one_side ∧
     ObjItem.answer item = VStr "AAS").
Proof.
  split; [|split].
  - intros S R fuel s item s' Hrun.
    apply gen_congruence_item_Done in Hrun as [[Hst Haas]|[[Hst Hans]|[Hne1 Hne2]]].
    + split; [done|]. rewrite Hst. done.
    + split; [|done]. rewrite Hst. done.
    + done.
  - eexists _, _. split; [vm_compute; reflexivity|]. by vm_compute.
  - eexists _, _. split; [vm_compute; reflexivity|]. by vm_compute.
Qed.

Lemma gen_congruence_item_two_angles_witness :
  ∃ item s', gen_congruence_item 100 (MT.seed 5) = Done (item, s') ∧
             ObjItem.stem item = stem_non_included ∧
             ObjItem.answer item = VStr "AAS".
Proof.
  eexists _, _. split; [vm_compute; reflexivity|]. split; [by vm_compute|].
  refine (proj1 (proj1 gen_congruence_item_two_angles
                         MT.state MT_random 100 (MT.seed 5) _ _ _) _).
  - vm_compute. reflexivity.
  - by vm_compute.
Defined.

(** C9. In the side-length mode of the triangle-classification generator
    the three sides are pairwise distinct (strictly increasing once
    sorted), so neither the equilateral nor the isosceles test holds and
    the canonical answer is the scalene classification. *)
Theorem gen_triangle_types_item_sides_scalene {S : Type} `{PyRandom S}
    fuel (s : S) s1 item s' :
  choice ["sides"; "angles"] fuel s = Done ("sides", s1) →
  gen_triangle_types_item fuel s = Done (item, s') →
  ∃ a b c : Z,
    ObjItem.stem item = sides_stem a b c ∧
    a ≠ b ∧ b ≠ c ∧ a ≠ c ∧
    (bool_decide (a = b) && bool_decide (b = c) = false) ∧
    (bool_decide (a = b) || bool_decide (b = c) = false) ∧
    classify_sides a b c = "부등변삼각형" ∧
    ObjItem.answer item = VStr "부등변삼각형".
Proof.
  intros Hmode. unfold gen_triangle_types_item. intros Hrun.
  run_bind Hrun as mode Hmode'. rewrite Hmode in Hmode'.
  injection Hmode' as <- <-.
  rewrite bool_decide_eq_true_2 in Hrun by done.
  run_bind Hrun as sca Hsca.
  run_bind Hsca as [[[a b] c] [[stem choices] answer]] Hsides.
  apply ret_Done in Hsca as [<- _].
  apply triangle_types_sides_Done in Hsides as (Hlt & _ & -> & -> & ->).
  simpl in Hrun. run_bind Hrun as choices Hshuffle. run_bind Hrun as n Hn.
  apply ret_Done in Hrun as [<- _]. simpl.
  exists a, b, c. split; [done|].
  assert (a ≠ b) by lia. assert (b ≠ c) by lia. assert (a ≠ c) by lia.
  split_and!; try done.
  - by rewrite !bool_decide_eq_false_2.
  - by rewrite !bool_decide_eq_false_2.
  - unfold classify_sides. by rewrite !bool_decide_eq_false_2.
Qed.

Lemma gen_triangle_types_item_sides_scalene_witness :
  ∃ s1 item s',
    choice ["sides"; "angles"] 100 (MT.seed 1) = Done ("sides", s1) ∧
    gen_triangle_types_item 100 (MT.seed 1) = Done (item, s') ∧
    ∃ a b c : Z,
      ObjItem.stem item = sides_stem a b c ∧
      a ≠ b ∧ b ≠ c ∧ a ≠ c ∧
      (bool_decide (a = b) && bool_decide (b = c) = false) ∧
      (bool_decide (a = b) || bool_decide (b = c) = false) ∧
      classify_sides a b c = "부등변삼각형" ∧
      ObjItem.answer item = VStr "부등변삼각형".
Proof.
  eexists _, _, _. split; [vm_compute; reflexivity|].
  split; [vm_compute; reflexivity|].
  eapply (gen_triangle_types_item_sides_scalene 100 (MT.seed 1)).
  - vm_compute. reflexivity.
  - vm_compute. reflexivity.
Defined.

(** ** The iteration budget does not influence the result *)

Section FuelMono.
Context {S : Type} `{PyRandom S}.

Lemma fuel_mono_ret {A} (a : A) : fuel_mono S (ret a).
Proof. by intros f f' s r _. Qed.

Lemma fuel_mono_raise {A} e : fuel_mono S (raise (A := A) e).
Proof. by intros f f' s r _. Qed.

Lemma fuel_mono_out_of_fuel {A} : fuel_mono S (out_of_fuel (A := A)).
Proof. by intros f f' s r _. Qed.

Lemma fuel_mono_bind {A B} (m : M S A) (k : A → M S B) :
  fuel_mono S m → (∀ a, fuel_mono S (k a)) → fuel_mono S (bind m k).
Proof.
  intros Hm Hk f f' s [b s'] Hle (a & s1 & Ha & Hb)%bind_Done.
  unfold bind. rewrite (Hm _ _ _ _ Hle Ha). by apply (Hk a f).
Qed.

Lemma randbelow_loop_mono n k r b b' s x :
  b ≤ b' → randbelow_loop n k r b s = Done x →
  randbelow_loop n k r b' s = Done x.
Proof.
  revert b' r s. induction b as [|b IH]; intros b' r s Hle; simpl.
  - destruct (n <=? r)%N eqn:Hr; [done|]. intros <-.
    destruct b'; simpl; by rewrite Hr.
  - destruct b' as [|b']; [lia|]. simpl.
    destruct (n <=? r)%N; [|done].
    destruct (getrandbits k s) as [r1 s1]. apply IH. lia.
Qed.

Lemma fuel_mono_randbelow n : fuel_mono S (randbelow n).
Proof.
  intros f f' s r Hle. unfold randbelow.
  destruct (getrandbits _ s) as [r0 s1].
  destruct (randbelow_loop _ _ r0 f s1) as [x| |] eqn:Hloop; [|done..].
  by rewrite (randbelow_loop_mono _ _ _ _ _ _ _ Hle Hloop).
Qed.

#[local] Hint Resolve fuel_mono_ret fuel_mono_raise fuel_mono_out_of_fuel
  fuel_mono_randbelow : fuel_mono.

Ltac mono_step :=
  first
    [ apply fuel_mono_bind; [|intros ?]
    | progress simpl
    | case_bool_decide
    | match goal with
      | |- fuel_mono S (match ?x with _ => _ end) => destruct x
      | |- fuel_mono S (let '(_, _) := ?x in _) => destruct x
      end ].

Ltac mono := repeat (first [ solve [eauto with fuel_mono] | mono_step ]).

Lemma fuel_mono_choice {A} (l : list A) : fuel_mono S (choice l).
Proof. destruct l; unfold choice; mono. Qed.

Lemma fuel_mono_shuffle_loop {A} i (x : list A) : fuel_mono S (shuffle_loop i x).
Proof. revert x. induction i; intros x; simpl; mono. Qed.

Lemma fuel_mono_shuffle {A} (x : list A) : fuel_mono S (shuffle x).
Proof. apply fuel_mono_shuffle_loop. Qed.

Lemma fuel_mono_sample_loop {A} k m (pool : list A) :
  fuel_mono S (sample_loop k m pool).
Proof. revert m pool. induction k; intros m pool; simpl; mono. Qed.

Lemma fuel_mono_sample {A} (population : list A) k :
  fuel_mono S (sample population k).
Proof. unfold sample. case_bool_decide; [apply fuel_mono_sample_loop|mono]. Qed.

Lemma fuel_mono_randint a b : fuel_mono S (randint a b).
Proof. unfold randint. mono. Qed.

#[local] Hint Resolve fuel_mono_choice fuel_mono_shuffle fuel_mono_sample
  fuel_mono_randint : fuel_mono.

(** A loop that is monotone in its own budget and in the budget of
    its body is monotone once it runs on the budget of the caller. *)
Lemma fuel_mono_with_budget {A} (loop : nat → M S A) :
  (∀ b, fuel_mono S (loop b)) →
  (∀ b b' f s r, b ≤ b' → loop b f s = Done r → loop b' f s = Done r) →
  fuel_mono S (with_budget loop).
Proof.
  intros Hfuel Hbudget f f' s r Hle Hrun. unfold with_budget in *.
  apply (Hbudget f f'); [done|]. by apply (Hfuel f f f').
Qed.

Lemma fuel_mono_unpack3 l : fuel_mono S (unpack3 l).
Proof. unfold unpack3. mono. Qed.

#[local] Hint Resolve fuel_mono_unpack3 : fuel_mono.

Lemma fuel_mono_angle_sum_loop b a0 b0 : fuel_mono S (angle_sum_loop b a0 b0).
Proof. revert a0 b0. induction b; intros a0 b0; simpl; mono. Qed.

Lemma angle_sum_loop_budget b b' a0 b0 f s r :
  b ≤ b' → angle_sum_loop b a0 b0 f s = Done r →
  angle_sum_loop b' a0 b0 f s = Done r.
Proof.
  revert b' a0 b0 s. induction b as [|b IH]; intros b' a0 b0 s Hle; simpl.
  - case_bool_decide as Hc; [done|]. intros <-.
    destruct b'; simpl; by rewrite bool_decide_eq_false_2.
  - destruct b' as [|b']; [lia|]. simpl. case_bool_decide; [|done].
    intros Hrun. destruct r as [r s'].
    apply bind_Done in Hrun as (a1 & s1 & Ha1 & Hrun).
    apply bind_Done in Hrun as (b1 & s2 & Hb1 & Hrun).
    unfold bind. rewrite Ha1, Hb1. apply IH; [lia|done].
Qed.

Lemma fuel_mono_sides_loop b abc : fuel_mono S (sides_loop b abc).
Proof.
  revert abc. induction b; intros [[a0 b0] c0]; simpl; mono.
Qed.

Lemma sides_loop_budget b b' abc f s r :
  b ≤ b' → sides_loop b abc f s = Done r → sides_loop b' abc f s = Done r.
Proof.
  revert b' abc s. induction b as [|b IH]; intros b' [[a0 b0] c0] s Hle; simpl.
  - case_bool_decide as Hc; [done|]. intros <-.
    destruct b'; simpl; by rewrite bool_decide_eq_false_2.
  - destruct b' as [|b']; [lia|]. simpl. case_bool_decide; [|done].
    intros Hrun. destruct r as [r s'].
    apply bind_Done in Hrun as (l & s1 & Hl & Hrun).
    apply bind_Done in Hrun as (abc & s2 & Habc & Hrun).
    unfold bind. rewrite Hl, Habc. apply IH; [lia|done].
Qed.

Lemma fuel_mono_gen_angle_sum_item : fuel_mono S gen_angle_sum_item.
Proof.
  unfold gen_angle_sum_item. do 2 (apply fuel_mono_bind; [mono|intros ?]).
  apply fuel_mono_bind.
  - apply fuel_mono_with_budget.
    + intros b. apply fuel_mono_angle_sum_loop.
    + intros b b'. apply angle_sum_loop_budget.
  - intros [a' b']. mono.
Qed.

Lemma fuel_mono_gen_exterior_angle_item : fuel_mono S gen_exterior_angle_item.
Proof. unfold gen_exterior_angle_item. mono. Qed.

Lemma fuel_mono_triangle_types_sides : fuel_mono S triangle_types_sides.
Proof.
  unfold triangle_types_sides. do 2 (apply fuel_mono_bind; [mono|intros ?]).
  apply fuel_mono_bind.
  - apply fuel_mono_with_budget.
    + intros b. apply fuel_mono_sides_loop.
    + intros b b'. apply sides_loop_budget.
  - intros [[a' b'] c']. mono.
Qed.

Lemma fuel_mono_triangle_types_angles : fuel_mono S triangle_types_angles.
Proof. unfold triangle_types_angles. mono. Qed.

#[local] Hint Resolve fuel_mono_triangle_types_sides fuel_mono_triangle_types_angles
  : fuel_mono.

Lemma fuel_mono_gen_triangle_types_item : fuel_mono S gen_triangle_types_item.
Proof.
  unfold gen_triangle_types_item. apply fuel_mono_bind; [mono|intros mode].
  apply fuel_mono_bind; [case_bool_decide; mono|].
  intros [[stem choices] answer]. mono.
Qed.

Lemma fuel_mono_gen_congruence_item : fuel_mono S gen_congruence_item.
Proof.
  unfold gen_congruence_item. apply fuel_mono_bind; [mono|intros pattern].
  apply fuel_mono_bind; [repeat case_bool_decide; mono|].
  intros [stem ans]. mono.
Qed.

Lemma fuel_mono_gen_similarity_item : fuel_mono S gen_similarity_item.
Proof. unfold gen_similarity_item. mono. Qed.

Lemma fuel_mono_call_gen tk : fuel_mono S (call_gen tk).
Proof.
  unfold call_gen, GEN_FUNCS. repeat case_bool_decide;
    auto using fuel_mono_gen_angle_sum_item, fuel_mono_gen_exterior_angle_item,
      fuel_mono_gen_triangle_types_item, fuel_mono_gen_congruence_item,
      fuel_mono_gen_similarity_item, fuel_mono_raise.
Qed.

#[local] Hint Resolve fuel_mono_call_gen : fuel_mono.

Lemma fuel_mono_generate_loop n keys : fuel_mono S (generate_loop n keys).
Proof. induction n; simpl; mono. Qed.

(** Two budgets under which a run finishes give the same result. *)
Lemma fuel_mono_agree {A} (m : M S A) f1 f2 s r1 r2 :
  fuel_mono S m → m f1 s = Done r1 → m f2 s = Done r2 → r1 = r2.
Proof.
  intros Hm H1 H2.
  apply (Hm f1 (f1 `max` f2)) in H1; [|lia].
  apply (Hm f2 (f1 `max` f2)) in H2; [|lia].
  congruence.
Qed.

End FuelMono.

(** ** The Generate button *)

Section GenerateLemmas.
Context {S : Type} `{PyRandom S}.

(** Shuffling a list that holds [a] gives a non-empty list that holds
    [a]. *)
Lemma shuffle_keeps {A} (x : list A) a fuel (s : S) x' s' :
  a ∈ x → shuffle x fuel s = Done (x', s') → x' ≠ [] ∧ a ∈ x'.
Proof.
  intros Ha [Hlen Hin]%shuffle_Done. split; [|by apply Hin].
  intros ->. by apply Hin, elem_of_nil in Ha.
Qed.

Lemma gen_angle_sum_item_mcq fuel (s : S) item s' :
  gen_angle_sum_item fuel s = Done (item, s') → mcq_ok item.
Proof.
  unfold gen_angle_sum_item. intros Hrun.
  run_bind Hrun as a0 Ha0. run_bind Hrun as b0 Hb0.
  run_bind Hrun as [a b] Hloop. run_bind Hrun as choices Hshuffle.
  apply ret_Done in Hrun as [<- _]. intros _. simpl.
  eapply shuffle_keeps in Hshuffle as [? ?]; [|by left]. eauto.
Qed.

Lemma gen_exterior_angle_item_mcq fuel (s : S) item s' :
  gen_exterior_angle_item fuel s = Done (item, s') → mcq_ok item.
Proof.
  unfold gen_exterior_angle_item. intros Hrun.
  run_bind Hrun as x Hx. run_bind Hrun as a Ha.
  run_bind Hrun as choices Hshuffle.
  apply ret_Done in Hrun as [<- _]. intros _. simpl.
  eapply shuffle_keeps in Hshuffle as [? ?]; [|by left]. eauto.
Qed.

Lemma gen_triangle_types_item_mcq fuel (s : S) item s' :
  gen_triangle_types_item fuel s = Done (item, s') → mcq_ok item.
Proof.
  unfold gen_triangle_types_item. intros Hrun.
  run_bind Hrun as mode Hmode. run_bind Hrun as [[stem choices] answer] Hsca.
  run_bind Hrun as choices' Hshuffle. run_bind Hrun as n Hn.
  apply ret_Done in Hrun as [<- _]. intros _. simpl.
  assert (answer ∈ choices) as Hin.
  { case_bool_decide.
    - run_bind Hsca as [[[a b] c] [[stem0 choices0] answer0]] Hsides.
      apply ret_Done in Hsca as [[= -> -> ->] _].
      unfold triangle_types_sides in Hsides.
      run_bind Hsides as l Hl. run_bind Hsides as abc Habc.
      run_bind Hsides as [[a' b'] c'] Hloop.
      apply ret_Done in Hsides as [[= _ _ _ _ <- <-] _].
      unfold classify_sides.
      destruct (_ && _); [by left|]. destruct (_ || _); [by right; left|].
      do 3 right. by left.
    - unfold triangle_types_angles in Hsca. run_bind Hsca as A HA.
      apply ret_Done in Hsca as [[= _ <- <-] _].
      unfold classify_angle. repeat case_bool_decide.
      + right. by left.
      + do 2 right. by left.
      + by left. }
  eapply shuffle_keeps in Hshuffle as [? ?]; [|done]. eauto.
Qed.

Lemma gen_congruence_item_mcq fuel (s : S) item s' :
  gen_congruence_item fuel s = Done (item, s') → mcq_ok item.
Proof.
  unfold gen_congruence_item. intros Hrun.
  run_bind Hrun as pattern Hpattern. run_bind Hrun as [stem ans] Hbranch.
  run_bind Hrun as choices Hshuffle. run_bind Hrun as n Hn.
  apply ret_Done in Hrun as [<- _]. intros _. simpl.
  assert (ans ∈ take 4 congruence_options ++ ["판단 불가"]) as Hin.
  { repeat case_bool_decide.
    - apply ret_Done in Hbranch as [[= _ <-] _]. by left.
    - apply ret_Done in Hbranch as [[= _ <-] _]. right. by left.
    - apply ret_Done in Hbranch as [[= _ <-] _]. do 3 right. by left.
    - run_bind Hbranch as ans' Hans.
      apply ret_Done in Hbranch as [[= _ <-] _].
      apply choice_elem_of in Hans.
      apply elem_of_cons in Hans as [->|Hans]; [do 2 right; by left|].
      apply elem_of_cons in Hans as [->|Hans]; [do 3 right; by left|].
      by apply elem_of_nil in Hans. }
  eapply shuffle_keeps in Hshuffle as [? ?]; [|done]. eauto.
Qed.

Lemma gen_similarity_item_mcq fuel (s : S) item s' :
  gen_similarity_item fuel s = Done (item, s') → mcq_ok item.
Proof.
  unfold gen_similarity_item. intros Hrun.
  run_bind Hrun as A HA. run_bind Hrun as B HB.
  run_bind Hrun as choices Hshuffle.
  apply ret_Done in Hrun as [<- _]. intros _. simpl.
  eapply shuffle_keeps in Hshuffle as [? ?]; [|by left]. eauto.
Qed.

Lemma call_gen_mcq tk fuel (s : S) item s' :
  call_gen tk fuel s = Done (item, s') → mcq_ok item.
Proof.
  unfold call_gen, GEN_FUNCS. repeat case_bool_decide;
    eauto using gen_angle_sum_item_mcq, gen_exterior_angle_item_mcq,
      gen_triangle_types_item_mcq, gen_congruence_item_mcq,
      gen_similarity_item_mcq.
  done.
Qed.

(** A batch that finishes holds as many items as were requested, each
    a well-formed multiple-choice item. *)
Lemma generate_loop_Done n keys fuel (s : S) items s' :
  generate_loop n keys fuel s = Done (items, s') →
  length items = n ∧ Forall mcq_ok items.
Proof.
  revert s items s'. induction n as [|n IH]; intros s items s'; simpl.
  - by intros [<- _]%ret_Done.
  - intros Hrun. run_bind Hrun as tk Htk. run_bind Hrun as item Hitem.
    run_bind Hrun as rest Hrest. apply ret_Done in Hrun as [<- _].
    apply IH in Hrest as [Hlen Hall]. apply call_gen_mcq in Hitem.
    split; [simpl; by rewrite Hlen|by constructor].
Qed.

End GenerateLemmas.

(** C5. With seed 42, ten items requested and all five topics selected,
    the batch finishes (under a budget of 100 iterations per loop, on
    the Mersenne Twister) with exactly ten items, and every item of
    kind MCQ has a non-empty choice list that holds its canonical
    answer. *)
Theorem generate_seed_42 :
  ∃ items s',
    generate (S := MT.state) 100 42 10 (fst <$> TOPICS) = Done (items, s') ∧
    length items = 10 ∧
    Forall mcq_ok items.
Proof.
  eexists _, _. split; [vm_compute; reflexivity|].
  eapply (generate_loop_Done 10 (topic_keys (fst <$> TOPICS)) 100 (MT.seed 42)).
  vm_compute. reflexivity.
Qed.

(** C8. A generation batch is determined by the seed, the selected
    topics and the item count: two runs that finish, from any two prior
    states of the process and under any two iteration budgets, store
    the same item list (ids, stems, choice orders, answers, kinds and
    points) and leave the random generator in the same state. *)
Theorem on_generate_deterministic {S : Type} `{PyRandom S}
    (fuel1 fuel2 : nat) (seed : Z) (n_items : nat)
    (topics_selected : list string) (w1 w2 w1' w2' : world S) :
  on_generate fuel1 seed n_items topics_selected w1 = Done w1' →
  on_generate fuel2 seed n_items topics_selected w2 = Done w2' →
  quiz_items (state w1') = quiz_items (state w2') ∧ rng w1' = rng w2'.
Proof.
  unfold on_generate, generate. intros Hrun1 Hrun2.
  destruct (generate_loop _ _ fuel1 _) as [[items1 s1]| |] eqn:Hgen1; [|done..].
  destruct (generate_loop _ _ fuel2 _) as [[items2 s2]| |] eqn:Hgen2; [|done..].
  injection Hrun1 as <-. injection Hrun2 as <-. simpl.
  pose proof (fuel_mono_agree _ _ _ _ _ _
                (fuel_mono_generate_loop _ _) Hgen1 Hgen2) as Heq.
  by injection Heq as -> ->.
Qed.

Lemma on_generate_deterministic_witness :
  ∃ w1' w2',
    on_generate (S := MT.state) 100 42 10 (fst <$> TOPICS)
      {| rng := MT.seed 7; state := initial_session |} = Done w1' ∧
    on_generate (S := MT.state) 200 42 10 (fst <$> TOPICS)
      {| rng := MT.seed 8; state := initial_session |} = Done w2' ∧
    quiz_items (state w1') = quiz_items (state w2') ∧ rng w1' = rng w2'.
Proof.
  eexists _, _. split; [vm_compute; reflexivity|].
  split; [vm_compute; reflexivity|].
  eapply (on_generate_deterministic 100 200 42 10 (fst <$> TOPICS)
            {| rng := MT.seed 7; state := initial_session |}
            {| rng := MT.seed 8; state := initial_session |}).
  - vm_compute. reflexivity.
  - vm_compute. reflexivity.
Defined.

(** ** Auto-grading *)

Section AutoGrade.

Lemma foldl_grade_item sid st items total max_total store :
  foldl (grade_item sid st) (total, max_total, store) items =
  ((total + earned st items)%Z, (max_total + sum_points items)%Z,
   graded_store sid st store items).
Proof.
  revert total max_total store.
  induction items as [|item items IH]; intros total max_total store; simpl.
  - by rewrite !Z.add_0_r.
  - rewrite IH. unfold graded. simpl. by rewrite !Z.add_assoc.
Qed.

Lemma earned_all_correct st items :
  (∀ item, item ∈ items →
     py_str (stored_response st item) = py_str (ObjItem.answer item)) →
  earned st items = sum_points items.
Proof.
  induction items as [|item items IH]; intros Hall; simpl; [done|].
  rewrite IH by (intros i Hi; apply Hall; by right).
  rewrite bool_decide_eq_true_2; [done|]. apply Hall. by left.
Qed.

(** The grading loop writes over what an earlier run of the same loop
    wrote. *)
Lemma graded_store_union sid st store items :
  graded_store sid st store items = graded_store sid st ∅ items ∪ store.
Proof.
  unfold graded_store. revert store.
  induction items as [|item items IH]; intros store; simpl.
  - by rewrite (left_id_L ∅ (∪)).
  - rewrite IH. rewrite (IH (<[_ := _]> ∅)).
    rewrite <- (assoc_L (∪)). f_equal.
    rewrite <- insert_union_l. by rewrite (left_id_L ∅ (∪)).
Qed.

Lemma graded_store_idemp sid st store items :
  graded_store sid st (graded_store sid st store items) items =
  graded_store sid st store items.
Proof.
  rewrite (graded_store_union sid st (graded_store _ _ _ _)).
  rewrite (graded_store_union sid st store).
  rewrite (assoc_L (∪)). by rewrite (idemp_L (∪)).
Qed.

(** Grading reads the session through the widget values only. *)
Lemma graded_widgets st st' item :
  widgets st = widgets st' → graded st item = graded st' item.
Proof. intros Hw. unfold graded, stored_response. by rewrite Hw. Qed.

Lemma earned_widgets st st' items :
  widgets st = widgets st' → earned st items = earned st' items.
Proof.
  intros Hw. unfold earned.
  induction items as [|item items IH]; cbn [foldr]; [done|].
  by rewrite IH, (graded_widgets st st').
Qed.

Lemma graded_store_widgets sid st st' store items :
  widgets st = widgets st' →
  graded_store sid st store items = graded_store sid st' store items.
Proof.
  intros Hw. unfold graded_store. revert store.
  induction items as [|item items IH]; intros store; cbn [foldl]; [done|].
  by rewrite IH, (graded_widgets st st').
Qed.

(** What the button does once a quiz exists. *)
Lemma on_autograde_quiz sid st :
  quiz_items st ≠ [] →
  on_autograde sid st =
    ({| students := students st;
        quiz_items := quiz_items st;
        responses := graded_store sid st (responses st) (quiz_items st);
        rubric_scores := rubric_scores st;
        widgets := widgets st |},
     Some (earned st (quiz_items st), sum_points (quiz_items st))).
Proof.
  unfold on_autograde.
  destruct (quiz_items st) as [|item items] eqn:Hitems; [done|]. intros _.
  by rewrite foldl_grade_item, !Z.add_0_l.
Qed.

End AutoGrade.

(** C2. When the stored response of the student to every item of the
    quiz equals, as a string, the canonical answer of the item,
    auto-grading reports the sum of the point values both as the total
    and as the maximum. (The button exists once a quiz was generated.) *)
Theorem on_autograde_all_correct (sid : pyval) (st : session) :
  quiz_items st ≠ [] →
  (∀ item, item ∈ quiz_items st →
     py_str (stored_response st item) = py_str (ObjItem.answer item)) →
  snd (on_autograde sid st) =
    Some (sum_points (quiz_items st), sum_points (quiz_items st)).
Proof.
  intros Hne Hall. rewrite on_autograde_quiz by done.
  unfold snd. by rewrite earned_all_correct.
Qed.

Lemma on_autograde_all_correct_witness :
  quiz_items answered_session ≠ [] ∧
  (∀ item, item ∈ quiz_items answered_session →
     py_str (stored_response answered_session item)
       = py_str (ObjItem.answer item)) ∧
  snd (on_autograde (VStr "S001") answered_session) = Some (4%Z, 4%Z).
Proof.
  assert (Hall : ∀ item, item ∈ quiz_items answered_session →
     py_str (stored_response answered_session item)
       = py_str (ObjItem.answer item)).
  { intros item Hin. cbn [quiz_items answered_session] in Hin.
    repeat (apply elem_of_cons in Hin as [->|Hin]; [vm_compute; reflexivity|]).
    by apply elem_of_nil in Hin. }
  split; [done|]. split; [exact Hall|].
  exact (on_autograde_all_correct (VStr "S001") answered_session
           ltac:(done) Hall).
Defined.

(** C6. Grading a second time, with the widget values untouched, leaves
    the session (the response store with its flags and scores) and the
    reported score as the first run left them. *)
Theorem on_autograde_idempotent (sid : pyval) (st : session) :
  on_autograde sid (fst (on_autograde sid st)) = on_autograde sid st.
Proof.
  destruct (decide (quiz_items st = [])) as [Hnil|Hne].
  - unfold on_autograde at 2. rewrite Hnil. unfold fst.
    unfold on_autograde. by rewrite Hnil.
  - rewrite (on_autograde_quiz sid st) by done. unfold fst.
    set (st1 := {| students := students st |}).
    rewrite (on_autograde_quiz sid st1) by exact Hne.
    rewrite (earned_widgets st1 st) by done.
    rewrite (graded_store_widgets sid st1 st) by done.
    unfold st1. cbn [students quiz_items responses rubric_scores widgets].
    by rewrite graded_store_idemp.
Qed.

(** ** Rubric save *)

(** C7. Saving a rubric twice with the same levels and notes leaves the
    session as one save does, with exactly one record under the
    (student, task) key, the record of the save; a save with other
    values under the same key replaces the earlier record. *)
Theorem on_rubric_save_overwrite (sid2 : pyval) (task_obj : PerfTask.t)
    (levels levels' : string → Z) (notes notes' : string) (st : session) :
  let key := (sid2, PerfTask.id task_obj) in
  let once := on_rubric_save sid2 task_obj levels notes st in
  let twice := on_rubric_save sid2 task_obj levels notes once in
  twice = once ∧
  records_at key (rubric_scores twice)
    = [(key, rubric_record levels notes task_obj)] ∧
  size (rubric_scores twice) = size (rubric_scores once) ∧
  on_rubric_save sid2 task_obj levels' notes' once
    = on_rubric_save sid2 task_obj levels' notes' st ∧
  rubric_scores (on_rubric_save sid2 task_obj levels' notes' once) !! key
    = Some (rubric_record levels' notes' task_obj).
Proof.
  intros key once twice.
  assert (Htwice : twice = once).
  { unfold twice, once, on_rubric_save. simpl. by rewrite insert_insert_eq. }
  split_and!.
  - done.
  - rewrite Htwice. unfold records_at, once, on_rubric_save. simpl.
    fold key.
    assert (filter (λ kv, kv.1 = key)
              (<[key := rubric_record levels notes task_obj]> (rubric_scores st))
            = {[key := rubric_record levels notes task_obj]}) as ->.
    { apply map_eq. intros k. rewrite map_lookup_filter.
      destruct (decide (k = key)) as [->|Hk].
      - rewrite lookup_insert_eq, lookup_singleton_eq. simpl.
        by rewrite option_guard_True.
      - rewrite lookup_insert_ne, lookup_singleton_ne by done.
        destruct (rubric_scores st !! k) as [v|]; simpl; [|done].
        by rewrite option_guard_False. }
    by rewrite map_to_list_singleton.
  - by rewrite Htwice.
  - unfold once, on_rubric_save. simpl. by rewrite insert_insert_eq.
  - unfold once, on_rubric_save. simpl. by rewrite lookup_insert_eq.
Qed.

(** ** Roster upload *)

Section Roster.

Lemma cols_lower_lookup_None (df : DataFrame) k :
  (∀ c, c ∈ df_columns df → py_lower c ≠ k) → cols_lower df !! k = None.
Proof.
  unfold cols_lower.
  assert (∀ cols (m : gmap string string),
            m !! k = None → (∀ c, c ∈ cols → py_lower c ≠ k) →
            foldl (λ m c, <[py_lower c := c]> m) m cols !! k = None) as Hgen.
  { induction cols as [|c cols IH]; intros m Hm Hcols; simpl; [done|].
    apply IH.
    - rewrite lookup_insert_ne; [done|]. apply Hcols. by left.
    - intros c' Hc'. apply Hcols. by right. }
  intros Hcols. by apply Hgen.
Qed.

Lemma pick_column_fallback (df : DataFrame) k1 k2 i c :
  headers_missing df → k1 ∈ roster_headers → k2 ∈ roster_headers →
  df_columns df !! i = Some c →
  pick_column df k1 k2 i = Done c.
Proof.
  intros Hmiss Hk1 Hk2 Hi. unfold pick_column.
  rewrite !cols_lower_lookup_None; simpl.
  - by rewrite Hi.
  - intros c' Hc' Heq. apply (Hmiss c' Hc'). by rewrite Heq.
  - intros c' Hc' Heq. apply (Hmiss c' Hc'). by rewrite Heq.
Qed.

(** A column that is not renamed and carries none of the selected
    labels is dropped by the selection. *)
Lemma filter_renamed_other (mapping : gmap string string) (l : string)
    (rest : DataFrame) :
  (∀ col, col ∈ rest → mapping !! col.1 = None ∧ col.1 ≠ l) →
  filter (λ col, col.1 = l) (df_rename mapping rest) = [].
Proof.
  induction rest as [|col rest IH]; intros Hrest; [done|].
  unfold df_rename, DataFrame in *. rewrite fmap_cons, filter_cons.
  destruct (Hrest col) as [Hnone Hne]; [by left|]. simpl.
  rewrite Hnone. simpl. rewrite decide_False by done.
  apply IH. intros col' Hcol'. apply Hrest. by right.
Qed.

End Roster.

(** C4, as stated, fails: a table with the single column ["foo"] makes
    the handler raise [IndexError] at [list(df.columns)[1]]. *)
Lemma load_roster_one_column_raises :
  headers_missing [("foo", [VStr "S001"])] ∧
  load_roster [("foo", [VStr "S001"])] = Raise IndexError ∧
  on_upload (Some [("foo", [VStr "S001"])]) initial_session = Raise IndexError.
Proof.
  split; [|split; reflexivity].
  intros c [->|Hc%elem_of_nil]%elem_of_cons; [|done].
  vm_compute. intros Hin.
  repeat (apply elem_of_cons in Hin as [Heq|Hin]; [discriminate Heq|]).
  by apply elem_of_nil in Hin.
Qed.

(** C4, amended. For a table with at least two columns, of distinct
    labels none of which is one of the expected headers, roster loading
    falls back to the first two columns by position: it raises nothing
    and the roster is these two columns under the labels ["ID"] and
    ["이름"]. *)
Theorem load_roster_fallback (c0 c1 : string) (v0 v1 : list pyval)
    (rest : DataFrame) :
  let df := (c0, v0) :: (c1, v1) :: rest in
  NoDup (df_columns df) →
  headers_missing df →
  load_roster df = Done [("ID", v0); ("이름", v1)] ∧
  ∀ st, ∃ st', on_upload (Some df) st = Done st' ∧
               students st' = [("ID", v0); ("이름", v1)].
Proof.
  intros df Hnd Hmiss.
  assert (Hload : load_roster df = Done [("ID", v0); ("이름", v1)]).
  { unfold load_roster.
    rewrite (pick_column_fallback df "id" "학번" 0 c0); [|done|by left| |done].
    2:{ right. by left. }
    rewrite (pick_column_fallback df "이름" "name" 1 c1); [|done| | |done].
    2:{ do 2 right. by left. }
    2:{ do 3 right. by left. }
    apply NoDup_cons in Hnd as [Hc0 Hnd]. apply NoDup_cons in Hnd as [Hc1 Hnd].
    assert (c0 ≠ c1) as Hne by (intros ->; apply Hc0; by left).
    assert (∀ c, c ∈ df_columns df → c ≠ "ID" ∧ c ≠ "이름") as Hlabels.
    { intros c Hc. split; intros ->; apply (Hmiss _ Hc); vm_compute.
      - by left.
      - do 2 right. by left. }
    assert (∀ l, (l = "ID" ∨ l = "이름") →
              filter (λ col : string * list pyval, col.1 = l)
                (df_rename (<[c1 := "이름"]> {[c0 := "ID"]}) rest) = []) as Hrest.
    { intros l Hl. apply filter_renamed_other. intros col Hcol.
      assert (col.1 ∈ df_columns rest) as Hin by (by apply list_elem_of_fmap_2).
      split.
      - rewrite lookup_insert_ne.
        + rewrite lookup_singleton_ne; [done|]. intros ->. apply Hc0. by right.
        + by intros ->.
      - destruct (Hlabels col.1) as [? ?]; [by do 2 right|].
        by destruct Hl as [-> | ->]. }
    unfold df, df_select, DataFrame in *. unfold df_rename at 1 2.
    rewrite !fmap_cons.
    fold (df_rename (<[c1 := "이름"]> {[c0 := "ID"]}) rest).
    cbn [fst snd].
    rewrite lookup_insert_ne, lookup_singleton_eq by done.
    rewrite lookup_insert_eq. cbn [default].
    rewrite !filter_cons. cbn [fst].
    rewrite (Hrest "ID"), (Hrest "이름") by auto.
    rewrite (decide_True (P := "ID" = "ID")) by done.
    rewrite (decide_False (P := "이름" = "ID")) by done.
    rewrite (decide_False (P := "ID" = "이름")) by done.
    rewrite (decide_True (P := "이름" = "이름")) by done.
    done. }
  split; [done|].
  intros st. unfold on_upload. rewrite Hload. eauto.
Qed.

Lemma load_roster_fallback_witness :
  NoDup (df_columns [("학생번호", [VStr "S001"; VStr "S002"]);
                     ("성명", [VStr "홍길동"; VStr "김영희"]);
                     ("반", [VInt 3; VInt 4])]) ∧
  headers_missing [("학생번호", [VStr "S001"; VStr "S002"]);
                   ("성명", [VStr "홍길동"; VStr "김영희"]);
                   ("반", [VInt 3; VInt 4])] ∧
  load_roster [("학생번호", [VStr "S001"; VStr "S002"]);
               ("성명", [VStr "홍길동"; VStr "김영희"]);
               ("반", [VInt 3; VInt 4])]
    = Done [("ID", [VStr "S001"; VStr "S002"]);
            ("이름", [VStr "홍길동"; VStr "김영희"])].
Proof.
  assert (Hnd : NoDup (df_columns [("학생번호", [VStr "S001"; VStr "S002"]);
                     ("성명", [VStr "홍길동"; VStr "김영희"]);
                     ("반", [VInt 3; VInt 4])])).
  { apply (bool_decide_unpack _). vm_compute. exact I. }
  assert (Hmiss : headers_missing [("학생번호", [VStr "S001"; VStr "S002"]);
                   ("성명", [VStr "홍길동"; VStr "김영희"]);
                   ("반", [VInt 3; VInt 4])]).
  { intros c Hc. apply (bool_decide_unpack _).
    cbn in Hc.
    repeat (apply elem_of_cons in Hc as [->|Hc]; [vm_compute; exact I|]).
    by apply elem_of_nil in Hc. }
  split; [done|]. split; [done|].
  exact (proj1 (load_roster_fallback "학생번호" "성명" _ _ _ Hnd Hmiss)).
Defined.

(** * Further properties of the code *)

(** ** Exceptions of a run *)

Section BindRaise.
Context {S : Type} `{PyRandom S}.

Lemma bind_Raise {A B} (m : M S A) (f : A → M S B) fuel s e :
  bind m f fuel s = Raise e →
  m fuel s = Raise e ∨ ∃ a s1, m fuel s = Done (a, s1) ∧ f a fuel s1 = Raise e.
Proof.
  unfold bind. destruct (m fuel s) as [[a s1]|e'|]; [|intros [= ->]; left; done|done].
  intros Hf. right. by exists a, s1.
Qed.

End BindRaise.

(** [raise_bind H as a Ha] splits a run [H] of [x <- m ;; k] that raised
    into the case where [m] raised and the case where [m] returned [a]
    (run [Ha]) and [k] raised. *)
Tactic Notation "raise_bind" hyp(H) "as" simple_intropattern(a) ident(Ha) :=
  apply bind_Raise in H as [H|(a & ? & Ha & H)].

Section RaiseLemmas.
Context {S : Type} `{PyRandom S}.

Lemma randbelow_loop_no_raise n k r budget (s : S) e :
  randbelow_loop n k r budget s ≠ Raise e.
Proof.
  revert r s. induction budget as [|budget IH]; intros r s; simpl.
  - by destruct (n <=? r)%N.
  - destruct (n <=? r)%N; [|done].
    destruct (getrandbits k s) as [r1 s1]. apply IH.
Qed.

Lemma randbelow_no_raise n fuel (s : S) e : randbelow n fuel s ≠ Raise e.
Proof.
  unfold randbelow. destruct (getrandbits _ s) as [r s1].
  destruct (randbelow_loop _ _ r fuel s1) as [[r' s2]|e'|] eqn:Hloop; [done| |done].
  by apply randbelow_loop_no_raise in Hloop.
Qed.

Lemma choice_Raise {A} (l : list A) fuel (s : S) e :
  choice l fuel s = Raise e → e = IndexError ∧ l = [].
Proof.
  destruct l as [|d l]; unfold choice.
  - by intros [= <-].
  - intros [Hr|(j & s1 & _ & Hret)]%bind_Raise; [|done].
    by apply randbelow_no_raise in Hr.
Qed.

Lemma shuffle_loop_no_raise {A} i (x : list A) fuel (s : S) e :
  shuffle_loop i x fuel s ≠ Raise e.
Proof.
  revert x s. induction i as [|i IH]; intros x s; simpl; [done|].
  intros [Hr|(j & s1 & _ & Hrest)]%bind_Raise.
  - by apply randbelow_no_raise in Hr.
  - by apply IH in Hrest.
Qed.

Lemma shuffle_no_raise {A} (x : list A) fuel (s : S) e :
  shuffle x fuel s ≠ Raise e.
Proof. apply shuffle_loop_no_raise. Qed.

Lemma sample_loop_no_raise {A} k m (pool : list A) fuel (s : S) e :
  m ≤ length pool → sample_loop k m pool fuel s ≠ Raise e.
Proof.
  revert m pool s. induction k as [|k IH]; intros m pool s Hm; simpl; [done|].
  intros [Hr|(j & s1 & Hj%randbelow_lt & Hrest)]%bind_Raise.
  - by apply randbelow_no_raise in Hr.
  - destruct (lookup_lt_is_Some_2 pool j) as [x Hx]; [lia|].
    destruct (lookup_lt_is_Some_2 pool (m - 1)) as [y Hy]; [lia|].
    rewrite Hx, Hy in Hrest.
    apply bind_Raise in Hrest as [Hrest|(rest & s2 & _ & Hret)]; [|done].
    apply IH in Hrest; [done|]. rewrite length_insert. lia.
Qed.

Lemma sample_Raise {A} (population : list A) k fuel (s : S) e :
  sample population k fuel s = Raise e →
  e = ValueError ∧ length population < k.
Proof.
  unfold sample. case_bool_decide as Hk.
  - intros Hr. by apply sample_loop_no_raise in Hr.
  - intros [= <-]. split; [done|lia].
Qed.

Lemma randint_Raise a b fuel (s : S) e :
  randint a b fuel s = Raise e → e = ValueError ∧ (b < a)%Z.
Proof.
  unfold randint. case_bool_decide as Hw.
  - intros [Hr|(r & s1 & _ & Hret)]%bind_Raise; [|done].
    by apply randbelow_no_raise in Hr.
  - intros [= <-]. split; [done|lia].
Qed.

End RaiseLemmas.

(** ** Shuffling and printing *)

Section LibraryLemmas.
Context {S : Type} `{PyRandom S}.

Lemma swap_Permutation {A} (x : list A) i j : swap x i j ≡ₚ x.
Proof.
  unfold swap. destruct (x !! i) as [xi|] eqn:Hi; [|done].
  destruct (x !! j) as [xj|] eqn:Hj; [|done].
  by apply Permutation_insert_swap.
Qed.

Lemma shuffle_loop_Permutation {A} i (x : list A) fuel (s : S) x' s' :
  shuffle_loop i x fuel s = Done (x', s') → x' ≡ₚ x.
Proof.
  revert x s. induction i as [|i IH]; intros x s; simpl.
  - by intros [<- _]%ret_Done.
  - intros Hrun. run_bind Hrun as j Hj.
    apply IH in Hrun. by rewrite Hrun, swap_Permutation.
Qed.

(** [random.shuffle] rearranges: the result is a permutation. *)
Lemma shuffle_Permutation {A} (x : list A) fuel (s : S) x' s' :
  shuffle x fuel s = Done (x', s') → x' ≡ₚ x.
Proof. apply shuffle_loop_Permutation. Qed.

End LibraryLemmas.

Lemma to_int_not_nil (z : Z) :
  Z.to_int z ≠ Decimal.Pos Decimal.Nil ∧ Z.to_int z ≠ Decimal.Neg Decimal.Nil.
Proof.
  split; intros Heq; pose proof (of_to z) as Hz; rewrite Heq in Hz;
    simpl in Hz; subst z; discriminate Heq.
Qed.

(** [str] is injective on integers. *)
Lemma str_of_Z_inj (z1 z2 : Z) : str_of_Z z1 = str_of_Z z2 → z1 = z2.
Proof.
  unfold str_of_Z. intros Heq. apply to_int_inj.
  destruct (to_int_not_nil z1) as [? ?]. destruct (to_int_not_nil z2) as [? ?].
  assert (Some (Z.to_int z1) = Some (Z.to_int z2)) as [= ?]; [|done].
  rewrite <- (NilZero.isi (Z.to_int z1)), <- (NilZero.isi (Z.to_int z2)) by done.
  by rewrite Heq.
Qed.

(** The decimal string of an integer is a numeral: it is read back as
    the integer, which no other text of the application is. *)
Lemma str_of_Z_numeral (z : Z) :
  NilZero.int_of_string (str_of_Z z) = Some (Z.to_int z).
Proof.
  unfold str_of_Z. destruct (to_int_not_nil z). by apply NilZero.isi.
Qed.

(** ** Ranges *)

(** An element of [range(start, stop, step)] lies in [start, stop) on
    the grid of the step. *)
Lemma py_range_elem_of (start stop step z : Z) :
  (0 < step)%Z → z ∈ py_range start stop step →
  (start ≤ z < stop)%Z ∧ ∃ i : Z, z = (start + i * step)%Z.
Proof.
  intros Hstep. unfold py_range.
  intros (i & -> & Hi)%list_elem_of_fmap. apply elem_of_seq in Hi.
  split; [|by exists (Z.of_nat i)].
  pose proof (Z.mul_div_le (stop - start + step - 1) step Hstep).
  destruct (decide (0 ≤ (stop - start + step - 1) / step)%Z); nia.
Qed.

(** ** Shape of the generated items *)

Section GeneratorShapes.
Context {S : Type} `{PyRandom S}.

(** The ordered sides of the side-length branch come from
    [range(3, 12)] and satisfy the strict triangle inequality. *)
Lemma unpack3_sorted_range (l : list Z) fuel (s : S) a b c s' :
  NoDup l → (∀ x, x ∈ l → (3 ≤ x ≤ 11)%Z) →
  unpack3 (sorted l) fuel s = Done ((a, b, c), s') →
  (a < b < c)%Z ∧ (3 ≤ a)%Z ∧ (c ≤ 11)%Z.
Proof.
  intros Hnd Hrange. unfold unpack3.
  destruct (sorted l) as [|x1 [|x2 [|x3 [|]]]] eqn:Hsorted; try done.
  intros [[= <- <- <-] _]%ret_Done.
  apply sorted_unpack3 in Hsorted as [Hlt Hin]; [|done].
  split; [done|].
  split; [apply Hrange, Hin; by left|apply Hrange, Hin; do 2 right; by left].
Qed.

Lemma sample_sides_range fuel (s : S) l s' :
  sample (py_range 3 12 1) 3 fuel s = Done (l, s') →
  NoDup l ∧ ∀ x, x ∈ l → (3 ≤ x ≤ 11)%Z.
Proof.
  intros (Hnd & _ & Hin)%sample_Done; [|apply sides_population_NoDup].
  split; [done|]. intros x Hx%Hin.
  apply py_range_elem_of in Hx as [? _]; lia.
Qed.

Lemma sides_loop_range budget a0 b0 c0 fuel (s : S) a b c s' :
  (a0 < b0 < c0)%Z ∧ (3 ≤ a0)%Z ∧ (c0 ≤ 11)%Z →
  sides_loop budget (a0, b0, c0) fuel s = Done ((a, b, c), s') →
  (a < b < c)%Z ∧ (3 ≤ a)%Z ∧ (c ≤ 11)%Z ∧ (c < a + b)%Z.
Proof.
  revert a0 b0 c0 s. induction budget as [|budget IH]; intros a0 b0 c0 s Hinv; simpl.
  - case_bool_decide; [done|]. intros [[= <- <- <-] _]%ret_Done. lia.
  - case_bool_decide.
    + intros Hrun. run_bind Hrun as l Hl. run_bind Hrun as [[a1 b1] c1] Habc.
      apply sample_sides_range in Hl as [Hnd Hrange].
      apply unpack3_sorted_range in Habc; [|done..].
      by eapply IH.
    + intros [[= <- <- <-] _]%ret_Done. lia.
Qed.

Lemma triangle_types_sides_range fuel (s : S) a b c sca s' :
  triangle_types_sides fuel s = Done ((a, b, c, sca), s') →
  (a < b < c)%Z ∧ (3 ≤ a)%Z ∧ (c ≤ 11)%Z ∧ (c < a + b)%Z ∧
  sca = (sides_stem a b c,
         ["정삼각형"; "이등변삼각형"; "직각삼각형"; "부등변삼각형"],
         classify_sides a b c).
Proof.
  unfold triangle_types_sides. intros Hrun.
  run_bind Hrun as l Hl. run_bind Hrun as [[a0 b0] c0] Habc.
  run_bind Hrun as [[a' b'] c'] Hloop.
  apply sample_sides_range in Hl as [Hnd Hrange].
  apply unpack3_sorted_range in Habc; [|done..].
  apply sides_loop_range in Hloop; [|done].
  apply ret_Done in Hrun as [[= <- <- <- <-] _].
  by destruct Hloop as (? & ? & ? & ?).
Qed.

End GeneratorShapes.

(** X1. An exterior-angle item is built from an exterior angle [x] of
    [range(100, 160, 5)] and a remote interior angle [a] of
    [range(20, 70, 5)]; its canonical answer is the string of [x - a],
    an angle between 35 and 135 degrees, and its choices are the answer
    and the three distractors [+5], [-10], [+15] in some order. *)
Theorem gen_exterior_angle_item_sound {S : Type} `{PyRandom S}
    fuel (s : S) item s' :
  gen_exterior_angle_item fuel s = Done (item, s') →
  ∃ x a : Z,
    x ∈ py_range 100 160 5 ∧ a ∈ py_range 20 70 5 ∧
    (35 ≤ x - a ≤ 135)%Z ∧
    ObjItem.id item = "EX-" +:+ str_of_Z x +:+ "-" +:+ str_of_Z a ∧
    ObjItem.answer item = VStr (str_of_Z (x - a)) ∧
    ObjItem.choices item ≡ₚ
      [str_of_Z (x - a); str_of_Z (x - a + 5); str_of_Z (x - a - 10);
       str_of_Z (x - a + 15)].
Proof.
  unfold gen_exterior_angle_item. intros Hrun.
  run_bind Hrun as x Hx. run_bind Hrun as a Ha.
  run_bind Hrun as choices Hshuffle.
  apply ret_Done in Hrun as [<- _]. simpl.
  apply choice_elem_of in Hx, Ha. apply shuffle_Permutation in Hshuffle.
  exists x, a. split_and!; try done.
  - apply py_range_elem_of in Hx as [? [i ->]]; [|lia].
    apply py_range_elem_of in Ha as [? [j ->]]; lia.
  - apply py_range_elem_of in Hx as [? [i ->]]; [|lia].
    apply py_range_elem_of in Ha as [? [j ->]]; lia.
Qed.

Lemma gen_exterior_angle_item_sound_witness :
  ∃ item s', gen_exterior_angle_item 100 (MT.seed 3) = Done (item, s') ∧
  ∃ x a : Z,
    x ∈ py_range 100 160 5 ∧ a ∈ py_range 20 70 5 ∧
    (35 ≤ x - a ≤ 135)%Z ∧
    ObjItem.id item = "EX-" +:+ str_of_Z x +:+ "-" +:+ str_of_Z a ∧
    ObjItem.answer item = VStr (str_of_Z (x - a)) ∧
    ObjItem.choices item ≡ₚ
      [str_of_Z (x - a); str_of_Z (x - a + 5); str_of_Z (x - a - 10);
       str_of_Z (x - a + 15)].
Proof.
  eexists _, _. split; [vm_compute; reflexivity|].
  eapply (gen_exterior_angle_item_sound 100 (MT.seed 3)).
  vm_compute. reflexivity.
Defined.

(** X2. In the angle mode of the triangle-classification generator the
    given angle is one of the eight listed values and the canonical
    answer follows the thresholds: below 90 acute, 90 right, above 90
    obtuse. *)
Theorem gen_triangle_types_item_angles {S : Type} `{PyRandom S}
    fuel (s : S) s1 item s' :
  choice ["sides"; "angles"] fuel s = Done ("angles", s1) →
  gen_triangle_types_item fuel s = Done (item, s') →
  ∃ A : Z,
    A ∈ [30; 45; 60; 70; 80; 90; 100; 120]%Z ∧
    ObjItem.stem item =
      "어떤 삼각형의 한 각이 " +:+ str_of_Z A +:+ "°이다. 이 삼각형의 분류는?" ∧
    ObjItem.choices item ≡ₚ ["예각삼각형"; "직각삼각형"; "둔각삼각형"; "정삼각형"] ∧
    (((A < 90)%Z ∧ ObjItem.answer item = VStr "예각삼각형") ∨
     (A = 90%Z ∧ ObjItem.answer item = VStr "직각삼각형") ∨
     ((90 < A)%Z ∧ ObjItem.answer item = VStr "둔각삼각형")).
Proof.
  intros Hmode. unfold gen_triangle_types_item. intros Hrun.
  run_bind Hrun as mode Hmode'. rewrite Hmode in Hmode'.
  injection Hmode' as <- <-.
  rewrite bool_decide_eq_false_2 in Hrun by done.
  run_bind Hrun as sca Hsca. unfold triangle_types_angles in Hsca.
  run_bind Hsca as A HA. apply ret_Done in Hsca as [<- _].
  run_bind Hrun as choices Hshuffle. run_bind Hrun as n Hn.
  apply ret_Done in Hrun as [<- _]. simpl.
  apply choice_elem_of in HA. apply shuffle_Permutation in Hshuffle.
  exists A. split_and!; [done..|].
  unfold classify_angle. repeat case_bool_decide.
  - right. left. done.
  - right. right. done.
  - left. split; [lia|done].
Qed.

Lemma gen_triangle_types_item_angles_witness :
  ∃ s1 item s',
    choice ["sides"; "angles"] 100 (MT.seed 0) = Done ("angles", s1) ∧
    gen_triangle_types_item 100 (MT.seed 0) = Done (item, s') ∧
    ∃ A : Z,
      A ∈ [30; 45; 60; 70; 80; 90; 100; 120]%Z ∧
      ObjItem.stem item =
        "어떤 삼각형의 한 각이 " +:+ str_of_Z A +:+ "°이다. 이 삼각형의 분류는?" ∧
      ObjItem.choices item ≡ₚ ["예각삼각형"; "직각삼각형"; "둔각삼각형"; "정삼각형"] ∧
      (((A < 90)%Z ∧ ObjItem.answer item = VStr "예각삼각형") ∨
       (A = 90%Z ∧ ObjItem.answer item = VStr "직각삼각형") ∨
       ((90 < A)%Z ∧ ObjItem.answer item = VStr "둔각삼각형")).
Proof.
  eexists _, _, _. split; [vm_compute; reflexivity|].
  split; [vm_compute; reflexivity|].
  eapply (gen_triangle_types_item_angles 100 (MT.seed 0)).
  - vm_compute. reflexivity.
  - vm_compute. reflexivity.
Defined.

(** X3. In the side-length mode the three sides named in the stem are
    integers of [range(3, 12)] in increasing order that satisfy the
    strict triangle inequality: the re-sampling loop ends only then. *)
Theorem gen_triangle_types_item_sides_triangle {S : Type} `{PyRandom S}
    fuel (s : S) s1 item s' :
  choice ["sides"; "angles"] fuel s = Done ("sides", s1) →
  gen_triangle_types_item fuel s = Done (item, s') →
  ∃ a b c : Z,
    ObjItem.stem item = sides_stem a b c ∧
    (3 ≤ a)%Z ∧ (a < b < c)%Z ∧ (c ≤ 11)%Z ∧ (c < a + b)%Z ∧
    ObjItem.choices item ≡ₚ
      ["정삼각형"; "이등변삼각형"; "직각삼각형"; "부등변삼각형"].
Proof.
  intros Hmode. unfold gen_triangle_types_item. intros Hrun.
  run_bind Hrun as mode Hmode'. rewrite Hmode in Hmode'.
  injection Hmode' as <- <-.
  rewrite bool_decide_eq_true_2 in Hrun by done.
  run_bind Hrun as sca Hsca.
  run_bind Hsca as [[[a b] c] sca'] Hsides.
  apply ret_Done in Hsca as [<- _].
  apply triangle_types_sides_range in Hsides as (? & ? & ? & ? & ->).
  simpl in Hrun. run_bind Hrun as choices Hshuffle. run_bind Hrun as n Hn.
  apply ret_Done in Hrun as [<- _]. simpl.
  apply shuffle_Permutation in Hshuffle.
  exists a, b, c. split_and!; try done; lia.
Qed.

Lemma gen_triangle_types_item_sides_triangle_witness :
  ∃ s1 item s',
    choice ["sides"; "angles"] 100 (MT.seed 2) = Done ("sides", s1) ∧
    gen_triangle_types_item 100 (MT.seed 2) = Done (item, s') ∧
    ∃ a b c : Z,
      ObjItem.stem item = sides_stem a b c ∧
      (3 ≤ a)%Z ∧ (a < b < c)%Z ∧ (c ≤ 11)%Z ∧ (c < a + b)%Z ∧
      ObjItem.choices item ≡ₚ
        ["정삼각형"; "이등변삼각형"; "직각삼각형"; "부등변삼각형"].
Proof.
  eexists _, _, _. split; [vm_compute; reflexivity|].
  split; [vm_compute; reflexivity|].
  eapply (gen_triangle_types_item_sides_triangle 100 (MT.seed 2)).
  - vm_compute. reflexivity.
  - vm_compute. reflexivity.
Defined.

(** X4. On sides in non-decreasing order, the classification by sides
    matches the pattern of equalities: equilateral exactly when all
    three are equal, isosceles exactly when two but not all are equal,
    scalene exactly when they are pairwise distinct. *)
Theorem classify_sides_pattern (a b c : Z) :
  (a ≤ b ≤ c)%Z →
  (classify_sides a b c = "정삼각형" ↔ a = b ∧ b = c) ∧
  (classify_sides a b c = "이등변삼각형" ↔
     (a = b ∨ b = c ∨ a = c) ∧ ¬ (a = b ∧ b = c)) ∧
  (classify_sides a b c = "부등변삼각형" ↔ a ≠ b ∧ b ≠ c ∧ a ≠ c).
Proof.
  intros Hle. unfold classify_sides.
  destruct (decide (a = b)) as [Hab|Hab], (decide (b = c)) as [Hbc|Hbc];
    rewrite ?(bool_decide_eq_true_2 _ Hab), ?(bool_decide_eq_false_2 _ Hab),
      ?(bool_decide_eq_true_2 _ Hbc), ?(bool_decide_eq_false_2 _ Hbc);
    simpl; split_and!; split; intros Hcase;
    first [ discriminate Hcase | done | lia | tauto | split_and!; lia
          | split; [tauto|lia] ].
Qed.

Lemma classify_sides_pattern_witness :
  (4 ≤ 4 ≤ 7)%Z ∧ classify_sides 4 4 7 = "이등변삼각형".
Proof.
  split; [lia|].
  apply (proj1 (proj2 (classify_sides_pattern 4 4 7 ltac:(lia)))).
  split; [by left|lia].
Defined.

(** ** Topic, kind, points and choices of every item *)

(** Four integers at pairwise different offsets print as four different
    strings. *)
Lemma NoDup_str_offsets (c d1 d2 d3 : Z) :
  d1 ≠ 0%Z → d2 ≠ 0%Z → d3 ≠ 0%Z → d1 ≠ d2 → d1 ≠ d3 → d2 ≠ d3 →
  NoDup [str_of_Z c; str_of_Z (c + d1); str_of_Z (c + d2); str_of_Z (c + d3)].
Proof.
  intros. change (NoDup (str_of_Z <$> [c; c + d1; c + d2; c + d3]%Z)).
  apply (@NoDup_fmap_2 _ _ str_of_Z str_of_Z_inj).
  repeat (apply NoDup_cons; split;
          [rewrite ?elem_of_cons, elem_of_nil; lia|]).
  apply NoDup_nil_2.
Qed.

Section ItemShape.
Context {S : Type} `{PyRandom S}.

Lemma shuffle_NoDup {A} (x : list A) fuel (s : S) x' s' :
  NoDup x → shuffle x fuel s = Done (x', s') →
  NoDup x' ∧ length x' = length x.
Proof.
  intros Hnd Hperm%shuffle_Permutation.
  split; [by rewrite Hperm|by apply Permutation_length].
Qed.

Lemma gen_angle_sum_item_shape fuel (s : S) item s' :
  gen_angle_sum_item fuel s = Done (item, s') →
  item_shape "triangle_angle_sum" 4 item.
Proof.
  unfold gen_angle_sum_item. intros Hrun.
  run_bind Hrun as a0 Ha0. run_bind Hrun as b0 Hb0.
  run_bind Hrun as [a b] Hloop. run_bind Hrun as choices Hshuffle.
  apply ret_Done in Hrun as [<- _]. unfold item_shape. simpl.
  apply shuffle_NoDup in Hshuffle as [? ?].
  - by split_and!.
  - replace (180 - (a + b) - 5)%Z with (180 - (a + b) + -5)%Z by lia.
    by apply NoDup_str_offsets.
Qed.

Lemma gen_exterior_angle_item_shape fuel (s : S) item s' :
  gen_exterior_angle_item fuel s = Done (item, s') →
  item_shape "exterior_angle" 4 item.
Proof.
  unfold gen_exterior_angle_item. intros Hrun.
  run_bind Hrun as x Hx. run_bind Hrun as a Ha.
  run_bind Hrun as choices Hshuffle.
  apply ret_Done in Hrun as [<- _]. unfold item_shape. simpl.
  apply shuffle_NoDup in Hshuffle as [? ?].
  - by split_and!.
  - replace (x - a - 10)%Z with (x - a + -10)%Z by lia.
    by apply NoDup_str_offsets.
Qed.

Lemma gen_triangle_types_item_shape fuel (s : S) item s' :
  gen_triangle_types_item fuel s = Done (item, s') →
  item_shape "triangle_types" 4 item.
Proof.
  unfold gen_triangle_types_item. intros Hrun.
  run_bind Hrun as mode Hmode. run_bind Hrun as [[stem choices] answer] Hsca.
  run_bind Hrun as choices' Hshuffle. run_bind Hrun as n Hn.
  apply ret_Done in Hrun as [<- _]. unfold item_shape. simpl.
  assert (NoDup choices ∧ length choices = 4) as [Hnd Hlen].
  { case_bool_decide.
    - run_bind Hsca as [[[a b] c] sca] Hsides.
      apply ret_Done in Hsca as [Heq _]. simpl in Heq. subst sca.
      apply triangle_types_sides_range in Hsides as (_ & _ & _ & _ & [= -> -> ->]).
      split; [|done]. apply (bool_decide_unpack _). by vm_compute.
    - unfold triangle_types_angles in Hsca. run_bind Hsca as A HA.
      apply ret_Done in Hsca as [[= _ <- _] _].
      split; [|done]. apply (bool_decide_unpack _). by vm_compute. }
  apply shuffle_NoDup in Hshuffle as [? ?]; [|done].
  split_and!; try done. congruence.
Qed.

Lemma gen_congruence_item_choices fuel (s : S) item s' :
  gen_congruence_item fuel s = Done (item, s') →
  ObjItem.topic item = "congruence" ∧ ObjItem.kind item = "MCQ" ∧
  ObjItem.points item = 2%Z ∧
  ObjItem.choices item ≡ₚ ["SSS"; "SAS"; "ASA"; "AAS"; "판단 불가"] ∧
  (∃ ans, ObjItem.answer item = VStr ans ∧ ans ∈ ["SSS"; "SAS"; "ASA"; "AAS"]) ∧
  ∃ n, (1000 ≤ n ≤ 9999)%Z ∧ ObjItem.id item = "CG-" +:+ str_of_Z n.
Proof.
  unfold gen_congruence_item. intros Hrun.
  run_bind Hrun as pattern Hpattern. run_bind Hrun as [stem ans] Hbranch.
  run_bind Hrun as choices Hshuffle. run_bind Hrun as n Hn.
  apply ret_Done in Hrun as [<- _]. simpl.
  apply shuffle_Permutation in Hshuffle. apply randint_Done in Hn.
  split_and!; try done; [|by exists n].
  exists ans. split; [done|].
  repeat case_bool_decide.
  - apply ret_Done in Hbranch as [[= _ <-] _]. by left.
  - apply ret_Done in Hbranch as [[= _ <-] _]. right. by left.
  - apply ret_Done in Hbranch as [[= _ <-] _]. do 3 right. by left.
  - run_bind Hbranch as ans' Hans.
    apply ret_Done in Hbranch as [[= _ <-] _].
    apply choice_elem_of in Hans.
    apply elem_of_cons in Hans as [->|Hans]; [do 2 right; by left|].
    apply elem_of_cons in Hans as [->|Hans]; [do 3 right; by left|].
    by apply elem_of_nil in Hans.
Qed.

Lemma gen_congruence_item_shape fuel (s : S) item s' :
  gen_congruence_item fuel s = Done (item, s') →
  item_shape "congruence" 5 item.
Proof.
  intros (? & ? & ? & Hperm & _)%gen_congruence_item_choices.
  unfold item_shape. split_and!; try done.
  - rewrite Hperm. apply (bool_decide_unpack _). by vm_compute.
  - by rewrite Hperm.
Qed.

Lemma gen_similarity_item_shape fuel (s : S) item s' :
  gen_similarity_item fuel s = Done (item, s') →
  item_shape "similarity_basic" 4 item.
Proof.
  unfold gen_similarity_item. intros Hrun.
  run_bind Hrun as A HA. run_bind Hrun as B HB.
  run_bind Hrun as choices Hshuffle.
  apply ret_Done in Hrun as [<- _]. unfold item_shape. simpl.
  apply shuffle_NoDup in Hshuffle as [? ?].
  - by split_and!.
  - apply (bool_decide_unpack _). by vm_compute.
Qed.

End ItemShape.

(** X5. An item of the congruence generator offers the four criteria
    SSS, SAS, ASA, AAS and "판단 불가" in some order (the fifth option of
    the list, HL, is never offered), its canonical answer is one of the
    four criteria, and its identifier is [CG-] followed by a number
    between 1000 and 9999. *)
Theorem gen_congruence_item_offers {S : Type} `{PyRandom S}
    fuel (s : S) item s' :
  gen_congruence_item fuel s = Done (item, s') →
  ObjItem.choices item ≡ₚ ["SSS"; "SAS"; "ASA"; "AAS"; "판단 불가"] ∧
  ("HL(직각삼각형)" ∉ ObjItem.choices item) ∧
  (∃ ans, ObjItem.answer item = VStr ans ∧ ans ∈ ["SSS"; "SAS"; "ASA"; "AAS"]) ∧
  ∃ n, (1000 ≤ n ≤ 9999)%Z ∧ ObjItem.id item = "CG-" +:+ str_of_Z n.
Proof.
  intros (_ & _ & _ & Hperm & Hans & Hid)%gen_congruence_item_choices.
  split_and!; try done.
  rewrite Hperm. apply (bool_decide_unpack _). by vm_compute.
Qed.

Lemma gen_congruence_item_offers_witness :
  ∃ item s', gen_congruence_item 100 (MT.seed 1) = Done (item, s') ∧
    ObjItem.choices item ≡ₚ ["SSS"; "SAS"; "ASA"; "AAS"; "판단 불가"] ∧
    ("HL(직각삼각형)" ∉ ObjItem.choices item) ∧
    (∃ ans, ObjItem.answer item = VStr ans ∧ ans ∈ ["SSS"; "SAS"; "ASA"; "AAS"]) ∧
    ∃ n, (1000 ≤ n ≤ 9999)%Z ∧ ObjItem.id item = "CG-" +:+ str_of_Z n.
Proof.
  eexists _, _. split; [vm_compute; reflexivity|].
  eapply (gen_congruence_item_offers 100 (MT.seed 1)).
  vm_compute. reflexivity.
Defined.

Lemma call_gen_item_shape {S : Type} `{PyRandom S} tk fuel (s : S) item s' :
  call_gen tk fuel s = Done (item, s') →
  item_shape tk (if bool_decide (tk = "congruence") then 5 else 4) item.
Proof.
  unfold call_gen, GEN_FUNCS.
  repeat case_bool_decide; subst; try done; simpl;
    eauto using gen_angle_sum_item_shape, gen_exterior_angle_item_shape,
      gen_triangle_types_item_shape, gen_congruence_item_shape,
      gen_similarity_item_shape.
Qed.

(** X6. [GEN_FUNCS[tk]()] returns an item of the topic [tk], of kind
    MCQ and worth 2 points, whose choices are pairwise different: five
    of them for the congruence topic, four for the others. *)
Theorem call_gen_shape {S : Type} `{PyRandom S} tk fuel (s : S) item s' :
  call_gen tk fuel s = Done (item, s') →
  item_shape tk (if bool_decide (tk = "congruence") then 5 else 4) item.
Proof.
  unfold call_gen, GEN_FUNCS. intros Hrun.
  repeat case_bool_decide; subst; try done; simpl.
  - by eapply gen_angle_sum_item_shape.
  - by eapply gen_exterior_angle_item_shape.
  - by eapply gen_triangle_types_item_shape.
  - by eapply gen_congruence_item_shape.
  - by eapply gen_similarity_item_shape.
Qed.

Lemma call_gen_shape_witness :
  ∃ item s', call_gen "exterior_angle" 100 (MT.seed 3) = Done (item, s') ∧
             item_shape "exterior_angle" 4 item.
Proof.
  eexists _, _. split; [vm_compute; reflexivity|].
  eapply (call_gen_shape "exterior_angle" 100 (MT.seed 3)).
  vm_compute. reflexivity.
Defined.

(** ** The batch of the Generate button *)

Section BatchLemmas.
Context {S : Type} `{PyRandom S}.

Lemma topic_keys_known ts tk :
  tk ∈ topic_keys ts → is_Some (GEN_FUNCS (S := S) tk).
Proof.
  unfold topic_keys. intros ([t k] & -> & Hin)%list_elem_of_fmap.
  apply list_elem_of_filter in Hin as [_ Hin]. unfold TOPICS in Hin.
  repeat (apply elem_of_cons in Hin as [[= -> ->]|Hin]; [by eexists|]).
  by apply elem_of_nil in Hin.
Qed.

Lemma generate_loop_shape n keys fuel (s : S) items s' :
  generate_loop n keys fuel s = Done (items, s') →
  length items = n ∧
  Forall (λ item, ObjItem.topic item ∈ keys ∧ ObjItem.kind item = "MCQ" ∧
                  ObjItem.points item = 2%Z) items.
Proof.
  revert s items s'. induction n as [|n IH]; intros s items s'; simpl.
  - by intros [<- _]%ret_Done.
  - intros Hrun. run_bind Hrun as tk Htk. run_bind Hrun as item Hitem.
    run_bind Hrun as rest Hrest. apply ret_Done in Hrun as [<- _].
    apply IH in Hrest as [Hlen Hall]. apply choice_elem_of in Htk.
    apply call_gen_item_shape in Hitem as (Htopic & ? & ? & _).
    split; [simpl; by rewrite Hlen|]. constructor; [|done].
    by rewrite Htopic.
Qed.

Lemma sum_points_two items :
  Forall (λ item, ObjItem.points item = 2%Z) items →
  sum_points items = (2 * Z.of_nat (length items))%Z.
Proof.
  induction 1 as [|item items Hitem _ IH]; simpl; [done|]. lia.
Qed.

(** No generator raises. *)
Lemma angle_sum_loop_no_raise budget a b fuel (s : S) e :
  angle_sum_loop budget a b fuel s ≠ Raise e.
Proof.
  revert a b s. induction budget as [|budget IH]; intros a b s; simpl;
    case_bool_decide; try done.
  intros Hr. raise_bind Hr as a1 Ha1.
  { apply choice_Raise in Hr as [_ Hnil]. by vm_compute in Hnil. }
  raise_bind Hr as b1 Hb1.
  { apply choice_Raise in Hr as [_ Hnil]. by vm_compute in Hnil. }
  by apply IH in Hr.
Qed.

Lemma sorted_length l : length (sorted l) = length l.
Proof. unfold sorted. by rewrite merge_sort_Permutation. Qed.

Lemma sample3_unpack_no_raise fuel (s s1 : S) l e :
  sample (py_range 3 12 1) 3 fuel s = Done (l, s1) →
  unpack3 (sorted l) fuel s1 ≠ Raise e.
Proof.
  intros (_ & Hlen & _)%sample_Done; [|apply sides_population_NoDup].
  rewrite <- sorted_length in Hlen. unfold unpack3.
  by destruct (sorted l) as [|x1 [|x2 [|x3 [|]]]].
Qed.

Lemma sides_loop_no_raise budget abc fuel (s : S) e :
  sides_loop budget abc fuel s ≠ Raise e.
Proof.
  revert abc s. induction budget as [|budget IH]; intros [[a b] c] s; simpl;
    case_bool_decide; try done.
  intros Hr. raise_bind Hr as l Hl.
  { apply sample_Raise in Hr as [_ Hlen]. vm_compute in Hlen. lia. }
  raise_bind Hr as abc Habc.
  { by apply (sample3_unpack_no_raise _ _ _ _ _ Hl) in Hr. }
  by apply IH in Hr.
Qed.

Lemma gen_angle_sum_item_no_raise fuel (s : S) e :
  gen_angle_sum_item fuel s ≠ Raise e.
Proof.
  unfold gen_angle_sum_item. intros Hr. raise_bind Hr as a Ha.
  { apply choice_Raise in Hr as [_ Hnil]. by vm_compute in Hnil. }
  raise_bind Hr as b Hb.
  { apply choice_Raise in Hr as [_ Hnil]. by vm_compute in Hnil. }
  raise_bind Hr as [a' b'] Hloop.
  { by apply angle_sum_loop_no_raise in Hr. }
  raise_bind Hr as choices Hshuffle; [|done].
  by apply shuffle_no_raise in Hr.
Qed.

Lemma gen_exterior_angle_item_no_raise fuel (s : S) e :
  gen_exterior_angle_item fuel s ≠ Raise e.
Proof.
  unfold gen_exterior_angle_item. intros Hr. raise_bind Hr as x Hx.
  { apply choice_Raise in Hr as [_ Hnil]. by vm_compute in Hnil. }
  raise_bind Hr as a Ha.
  { apply choice_Raise in Hr as [_ Hnil]. by vm_compute in Hnil. }
  raise_bind Hr as choices Hshuffle; [|done].
  by apply shuffle_no_raise in Hr.
Qed.

Lemma triangle_types_sides_no_raise fuel (s : S) e :
  triangle_types_sides fuel s ≠ Raise e.
Proof.
  unfold triangle_types_sides. intros Hr. raise_bind Hr as l Hl.
  { apply sample_Raise in Hr as [_ Hlen]. vm_compute in Hlen. lia. }
  raise_bind Hr as abc Habc.
  { by apply (sample3_unpack_no_raise _ _ _ _ _ Hl) in Hr. }
  raise_bind Hr as [[a b] c] Hloop; [|done].
  by apply sides_loop_no_raise in Hr.
Qed.

Lemma gen_triangle_types_item_no_raise fuel (s : S) e :
  gen_triangle_types_item fuel s ≠ Raise e.
Proof.
  unfold gen_triangle_types_item. intros Hr. raise_bind Hr as mode Hmode.
  { by apply choice_Raise in Hr as [_ Hnil]. }
  raise_bind Hr as [[stem choices] answer] Hsca.
  { case_bool_decide.
    - raise_bind Hr as r Hsides; [|done].
      by apply triangle_types_sides_no_raise in Hr.
    - unfold triangle_types_angles in Hr. raise_bind Hr as A HA; [|done].
      by apply choice_Raise in Hr as [_ Hnil]. }
  raise_bind Hr as choices' Hshuffle.
  { by apply shuffle_no_raise in Hr. }
  raise_bind Hr as n Hn; [|done].
  apply randint_Raise in Hr as [_ ?]. lia.
Qed.

Lemma gen_congruence_item_no_raise fuel (s : S) e :
  gen_congruence_item fuel s ≠ Raise e.
Proof.
  unfold gen_congruence_item. intros Hr. raise_bind Hr as pattern Hpattern.
  { by apply choice_Raise in Hr as [_ Hnil]. }
  raise_bind Hr as [stem ans] Hbranch.
  { repeat case_bool_decide; try done.
    raise_bind Hr as ans' Hans; [|done].
    by apply choice_Raise in Hr as [_ Hnil]. }
  raise_bind Hr as choices Hshuffle.
  { by apply shuffle_no_raise in Hr. }
  raise_bind Hr as n Hn; [|done].
  apply randint_Raise in Hr as [_ ?]. lia.
Qed.

Lemma gen_similarity_item_no_raise fuel (s : S) e :
  gen_similarity_item fuel s ≠ Raise e.
Proof.
  unfold gen_similarity_item. intros Hr. raise_bind Hr as A HA.
  { by apply choice_Raise in Hr as [_ Hnil]. }
  raise_bind Hr as B HB.
  { by apply choice_Raise in Hr as [_ Hnil]. }
  raise_bind Hr as choices Hshuffle; [|done].
  by apply shuffle_no_raise in Hr.
Qed.

Lemma call_gen_Raise tk fuel (s : S) e :
  call_gen tk fuel s = Raise e → GEN_FUNCS (S := S) tk = None.
Proof.
  unfold call_gen, GEN_FUNCS. repeat case_bool_decide; try done; intros Hr.
  - by apply gen_angle_sum_item_no_raise in Hr.
  - by apply gen_exterior_angle_item_no_raise in Hr.
  - by apply gen_triangle_types_item_no_raise in Hr.
  - by apply gen_congruence_item_no_raise in Hr.
  - by apply gen_similarity_item_no_raise in Hr.
Qed.

Lemma generate_loop_Raise n ts fuel (s : S) e :
  generate_loop n (topic_keys ts) fuel s = Raise e →
  e = IndexError ∧ topic_keys ts = [] ∧ 0 < n.
Proof.
  revert s. induction n as [|n IH]; intros s; simpl; [done|].
  intros Hr. raise_bind Hr as tk Htk.
  { apply choice_Raise in Hr as [-> ->]. split_and!; [done..|lia]. }
  apply choice_elem_of in Htk.
  raise_bind Hr as item Hitem.
  { apply call_gen_Raise in Hr. apply (topic_keys_known ts) in Htk as [g Hg].
    congruence. }
  raise_bind Hr as rest Hrest; [|done].
  apply IH in Hr as (-> & Hnil & _). split_and!; [done..|lia].
Qed.

End BatchLemmas.

Lemma generate_shape {S : Type} `{PyRandom S}
    fuel seed n_items topics_selected (items : list ObjItem.t) (s' : S) :
  generate fuel seed n_items topics_selected = Done (items, s') →
  length items = n_items ∧
  Forall (λ item, ObjItem.topic item ∈ topic_keys topics_selected ∧
                  ObjItem.kind item = "MCQ" ∧ ObjItem.points item = 2%Z) items ∧
  sum_points items = (2 * Z.of_nat n_items)%Z.
Proof.
  unfold generate. intros [Hlen Hall]%generate_loop_shape.
  split_and!; [done..|]. rewrite <- Hlen. apply sum_points_two.
  eapply Forall_impl; [exact Hall|]. by intros item (_ & _ & ?).
Qed.

(** X7. A batch that finishes holds exactly the requested number of
    items, every one of a selected topic, of kind MCQ and worth 2
    points, so that the points of the batch add up to twice the number
    of items. *)
Theorem generate_batch_shape {S : Type} `{PyRandom S}
    fuel seed n_items topics_selected (items : list ObjItem.t) (s' : S) :
  generate fuel seed n_items topics_selected = Done (items, s') →
  length items = n_items ∧
  Forall (λ item, ObjItem.topic item ∈ topic_keys topics_selected ∧
                  ObjItem.kind item = "MCQ" ∧ ObjItem.points item = 2%Z) items ∧
  sum_points items = (2 * Z.of_nat n_items)%Z.
Proof.
  unfold generate. intros [Hlen Hall]%generate_loop_shape.
  split_and!; [done..|]. rewrite <- Hlen. apply sum_points_two.
  rewrite Forall_forall in Hall. apply Forall_forall.
  intros item Hin. by destruct (Hall item Hin) as (_ & _ & ?).
Qed.

Lemma generate_batch_shape_witness :
  ∃ items s',
    generate (S := MT.state) 100 7 5 ["각의 합"; "합동조건"] = Done (items, s') ∧
    length items = 5 ∧
    Forall (λ item, ObjItem.topic item ∈ topic_keys ["각의 합"; "합동조건"] ∧
                    ObjItem.kind item = "MCQ" ∧ ObjItem.points item = 2%Z) items ∧
    sum_points items = (2 * Z.of_nat 5)%Z.
Proof.
  eexists _, _. split; [vm_compute; reflexivity|].
  eapply (generate_batch_shape 100 7 5 ["각의 합"; "합동조건"]).
  vm_compute. reflexivity.
Defined.

(** X8. The Generate button raises exactly when no topic is selected
    and at least one item is requested, and the exception is then
    [IndexError] (the choice from the empty list of topic keys): no
    generator raises, and no selected topic key is missing from
    [GEN_FUNCS]. *)
Theorem on_generate_Raise_iff {S : Type} `{PyRandom S}
    fuel seed n_items topics_selected (w : world S) e :
  on_generate fuel seed n_items topics_selected w = Raise e ↔
  e = IndexError ∧ topic_keys topics_selected = [] ∧ 0 < n_items.
Proof.
  unfold on_generate, generate. split.
  - destruct (generate_loop _ _ _ _) as [[items s]|e'|] eqn:Hgen; [done| |done].
    intros [= ->]. by apply generate_loop_Raise in Hgen.
  - intros (-> & -> & Hn). destruct n_items as [|n]; [lia|]. done.
Qed.

(** ** The response store after grading *)

Section GradedStore.

Lemma graded_store_lookup_other sid st store items k :
  (∀ item, item ∈ items → (sid, ObjItem.id item) ≠ k) →
  graded_store sid st store items !! k = store !! k.
Proof.
  unfold graded_store. revert store.
  induction items as [|item items IH]; intros store Hk; simpl; [done|].
  rewrite IH by (intros i Hi; apply Hk; by right).
  apply lookup_insert_ne. apply Hk. by left.
Qed.

Lemma graded_store_lookup_id sid st store items iid :
  iid ∈ ObjItem.id <$> items →
  ∃ item', item' ∈ items ∧ ObjItem.id item' = iid ∧
           graded_store sid st store items !! (sid, iid)
             = Some (graded st item').
Proof.
  revert store. induction items as [|x items IH]; intros store Hin.
  { by apply elem_of_nil in Hin. }
  change (graded_store sid st store (x :: items))
    with (graded_store sid st (<[(sid, ObjItem.id x) := graded st x]> store) items).
  destruct (decide (iid ∈ ObjItem.id <$> items)) as [Hlater|Hlast].
  - destruct (IH (<[(sid, ObjItem.id x) := graded st x]> store) Hlater)
      as (item' & Hin' & Hid' & Hlook).
    exists item'. split; [by right|]. done.
  - rewrite fmap_cons in Hin. apply elem_of_cons in Hin as [->|Hin]; [|done].
    exists x. split; [by left|]. split; [done|].
    rewrite graded_store_lookup_other; [by rewrite lookup_insert_eq|].
    intros y Hy [= Heq]. apply Hlast. rewrite <- Heq.
    by apply list_elem_of_fmap_2.
Qed.

Lemma graded_store_lookup_in sid st store items item :
  item ∈ items →
  ∃ item', item' ∈ items ∧ ObjItem.id item' = ObjItem.id item ∧
           graded_store sid st store items !! (sid, ObjItem.id item)
             = Some (graded st item').
Proof.
  intros Hin. apply graded_store_lookup_id. by apply list_elem_of_fmap_2.
Qed.

Lemma earned_bounds st items :
  (∀ item, item ∈ items → (0 ≤ ObjItem.points item)%Z) →
  (0 ≤ earned st items ≤ sum_points items)%Z.
Proof.
  induction items as [|item items IH]; intros Hpos; simpl; [lia|].
  assert (0 ≤ ObjItem.points item)%Z by (apply Hpos; by left).
  assert (0 ≤ earned st items ≤ sum_points items)%Z
    by (apply IH; intros i Hi; apply Hpos; by right).
  case_bool_decide; lia.
Qed.


End GradedStore.

(** X9. Auto-grading a student changes nothing but the records of that
    student for the items of the quiz: the roster, the quiz, the rubric
    store and the widget values stay, and so does every record of
    another student or of an item that is not in the quiz. *)
Theorem on_autograde_frame (sid : pyval) (st : session) :
  let st' := fst (on_autograde sid st) in
  students st' = students st ∧ quiz_items st' = quiz_items st ∧
  rubric_scores st' = rubric_scores st ∧ widgets st' = widgets st ∧
  (∀ sid' iid, sid' ≠ sid →
     responses st' !! (sid', iid) = responses st !! (sid', iid)) ∧
  (∀ iid, iid ∉ (ObjItem.id <$> quiz_items st) →
     responses st' !! (sid, iid) = responses st !! (sid, iid)).
Proof.
  destruct (decide (quiz_items st = [])) as [Hnil|Hne].
  - unfold on_autograde. rewrite Hnil. simpl. by rewrite Hnil.
  - rewrite on_autograde_quiz by done. simpl. split_and!; try done.
    + intros sid' iid Hsid. apply graded_store_lookup_other.
      intros item _ [= Heq _]. by apply Hsid.
    + intros iid Hiid. apply graded_store_lookup_other.
      intros item Hitem [= Heq]. apply Hiid. rewrite <- Heq.
      by apply list_elem_of_fmap_2.
Qed.

(** X10. After auto-grading, every item of the quiz has a record under
    (student, item id); when the item ids of the quiz are pairwise
    different it is the record of that very item: the stored response,
    whether it equals the canonical answer as a string, the full points
    or zero, and the echoed answer and topic. (Two items with one id
    share the record of the later one.) *)
Theorem on_autograde_records (sid : pyval) (st : session) (item : ObjItem.t) :
  item ∈ quiz_items st →
  let st' := fst (on_autograde sid st) in
  (∃ item', item' ∈ quiz_items st ∧ ObjItem.id item' = ObjItem.id item ∧
     responses st' !! (sid, ObjItem.id item) = Some (graded st item')) ∧
  (NoDup (ObjItem.id <$> quiz_items st) →
     responses st' !! (sid, ObjItem.id item) = Some (graded st item)).
Proof.
  intros Hin st'.
  assert (Hne : quiz_items st ≠ []) by (intros Hnil; rewrite Hnil in Hin;
                                        by apply elem_of_nil in Hin).
  unfold st'. rewrite on_autograde_quiz by done. simpl.
  destruct (graded_store_lookup_in sid st (responses st) _ _ Hin)
    as (item' & Hin' & Hid & Hlook).
  split; [by exists item'|].
  intros Hnd. rewrite Hlook. f_equal. f_equal.
  apply list_elem_of_lookup in Hin as [i Hi].
  apply list_elem_of_lookup in Hin' as [j Hj].
  assert (i = j) as ->; [|congruence].
  eapply (NoDup_lookup _ _ _ _ Hnd); rewrite list_lookup_fmap.
  - by rewrite Hi.
  - rewrite Hj. simpl. by rewrite Hid.
Qed.

Lemma on_autograde_records_witness :
  ∃ item,
    item ∈ quiz_items answered_session ∧
    NoDup (ObjItem.id <$> quiz_items answered_session) ∧
    responses (fst (on_autograde (VStr "S001") answered_session))
      !! (VStr "S001", ObjItem.id item)
    = Some (graded answered_session item) ∧
    Response.correct (graded answered_session item) = true.
Proof.
  eexists. split; [by left|].
  assert (Hnd : NoDup (ObjItem.id <$> quiz_items answered_session)).
  { apply (bool_decide_unpack _). by vm_compute. }
  split; [done|]. split; [|reflexivity].
  refine (proj2 (on_autograde_records (VStr "S001") answered_session _ _) Hnd).
  by left.
Defined.

(** X11. When no item has a negative point value, the total that
    auto-grading reports lies between zero and the reported maximum,
    and the maximum is the sum of the point values. *)
Theorem on_autograde_bounds (sid : pyval) (st : session) (total max_total : Z) :
  (∀ item, item ∈ quiz_items st → (0 ≤ ObjItem.points item)%Z) →
  snd (on_autograde sid st) = Some (total, max_total) →
  (0 ≤ total ≤ max_total)%Z ∧ max_total = sum_points (quiz_items st).
Proof.
  intros Hpos. destruct (decide (quiz_items st = [])) as [Hnil|Hne].
  - unfold on_autograde. by rewrite Hnil.
  - rewrite on_autograde_quiz by done. simpl. intros [= <- <-].
    split; [|done]. by apply earned_bounds.
Qed.

Lemma on_autograde_bounds_witness :
  (∀ item, item ∈ quiz_items answered_session → (0 ≤ ObjItem.points item)%Z) ∧
  snd (on_autograde (VStr "S001") answered_session) = Some (4%Z, 4%Z) ∧
  (0 ≤ 4 ≤ 4)%Z ∧ 4%Z = sum_points (quiz_items answered_session).
Proof.
  assert (Hpos : ∀ item, item ∈ quiz_items answered_session →
                         (0 ≤ ObjItem.points item)%Z).
  { intros item Hin. cbn [quiz_items answered_session] in Hin.
    repeat (apply elem_of_cons in Hin as [->|Hin]; [by vm_compute|]).
    by apply elem_of_nil in Hin. }
  split; [done|]. split; [reflexivity|].
  by apply (on_autograde_bounds (VStr "S001") answered_session 4 4 Hpos).
Defined.



(** ** Rubric display *)

Section RubricDisplay.

Lemma rubric_record_lookup levels notes task_obj :
  let rec := rubric_record levels notes task_obj in
  rec !! "concept" = Some (VInt (levels "concept")) ∧
  rec !! "procedure" = Some (VInt (levels "procedure")) ∧
  rec !! "reasoning" = Some (VInt (levels "reasoning")) ∧
  rec !! "communication" = Some (VInt (levels "communication")) ∧
  rec !! "notes" = Some (VStr notes) ∧
  rec !! "task_points" = Some (VInt (PerfTask.points task_obj)).
Proof.
  unfold rubric_record, rubric_levels, RUBRIC_CRITERIA. simpl.
  split_and!; by simplify_map_eq.
Qed.

End RubricDisplay.

(** X13. What is shown after a save reads back what was saved: the four
    criterion rows carry the four levels, the last row carries their
    sum, and the caption carries the notes; the display raises nothing
    and does not depend on the point value of the task. *)
Theorem rubric_display_after_save (sid2 : pyval) (task_obj : PerfTask.t)
    (levels : string → Z) (notes : string) (st : session) :
  rubric_display sid2 task_obj
    (on_rubric_save sid2 task_obj levels notes st)
  = inr (Some
      ([ ("개념 이해", VInt (levels "concept"));
         ("절차/계산", VInt (levels "procedure"));
         ("추론/정당화", VInt (levels "reasoning"));
         ("의사소통", VInt (levels "communication"));
         ("합계(가중치=1)",
          VInt (levels "concept" + levels "procedure" +
                levels "reasoning" + levels "communication")) ],
       "메모: " +:+ notes)).
Proof.
  unfold rubric_display, on_rubric_save. cbn [rubric_scores].
  rewrite lookup_insert_eq.
  destruct (rubric_record_lookup levels notes task_obj)
    as (Hc & Hp & Hr & Hm & Hn & Ht).
  rewrite bool_decide_eq_false_2.
  2:{ intros Hempty. rewrite Hempty in Hn. by rewrite lookup_empty in Hn. }
  unfold RUBRIC_CRITERIA, rubric_rows, rubric_sum, rec_get. cbn [fst snd].
  rewrite Hc, Hp, Hr, Hm, Hn. cbn [default py_str app].
  by rewrite Z.add_0_l.
Qed.

(** X14. A save under one (student, task) key leaves what is displayed
    for every other key as it was, and touches no other store. *)
Theorem on_rubric_save_frame (sid2 sid' : pyval) (task_obj task' : PerfTask.t)
    (levels : string → Z) (notes : string) (st : session) :
  (sid', PerfTask.id task') ≠ (sid2, PerfTask.id task_obj) →
  let st' := on_rubric_save sid2 task_obj levels notes st in
  rubric_display sid' task' st' = rubric_display sid' task' st ∧
  students st' = students st ∧ quiz_items st' = quiz_items st ∧
  responses st' = responses st ∧ widgets st' = widgets st.
Proof.
  intros Hne st'. split; [|done].
  unfold rubric_display, st', on_rubric_save. cbn [rubric_scores].
  by rewrite lookup_insert_ne.
Qed.

Lemma on_rubric_save_frame_witness :
  (VStr "S002", "PT-1") ≠ (VStr "S001", "PT-1") ∧
  rubric_display (VStr "S002")
    {| PerfTask.id := "PT-1"; PerfTask.topic := "congruence";
       PerfTask.prompt := ""; PerfTask.points := 8 |}
    (on_rubric_save (VStr "S001")
       {| PerfTask.id := "PT-1"; PerfTask.topic := "congruence";
          PerfTask.prompt := ""; PerfTask.points := 8 |}
       (λ _, 3%Z) "메모" initial_session)
  = inr None.
Proof.
  split; [done|].
  by rewrite (proj1 (on_rubric_save_frame (VStr "S001") (VStr "S002")
                {| PerfTask.id := "PT-1"; PerfTask.topic := "congruence";
                   PerfTask.prompt := ""; PerfTask.points := 8 |}
                {| PerfTask.id := "PT-1"; PerfTask.topic := "congruence";
                   PerfTask.prompt := ""; PerfTask.points := 8 |}
                (λ _, 3%Z) "메모" initial_session ltac:(done))).
Defined.

(** ** Snapshot keys *)

Section SnapshotKeys.

Lemma no_colon_prefix (s1 s2 i1 i2 : string) :
  no_colon s1 = true → no_colon s2 = true →
  s1 +:+ "::" +:+ i1 = s2 +:+ "::" +:+ i2 → s1 = s2 ∧ i1 = i2.
Proof.
  revert s2. induction s1 as [|c1 s1 IH]; intros [|c2 s2] H1 H2 Heq;
    simpl in *.
  - by simplify_eq.
  - by simplify_eq.
  - by simplify_eq.
  - injection Heq as -> Heq.
    apply andb_prop in H1 as [_ H1]. apply andb_prop in H2 as [_ H2].
    destruct (IH s2 H1 H2 Heq) as [-> ->]. done.
Qed.

Lemma snapshot_items_lookup_other {V} (items : list (pyval * string * V))
    (m : gmap string V) k :
  k ∉ (snapshot_key <$> items.*1) →
  foldl (λ m kv, <[snapshot_key kv.1 := kv.2]> m) m items !! k = m !! k.
Proof.
  revert m. induction items as [|kv items IH]; intros m Hk; simpl; [done|].
  rewrite IH.
  - apply lookup_insert_ne. intros Heq. apply Hk. rewrite <- Heq. by left.
  - intros Hin. apply Hk. by right.
Qed.

End SnapshotKeys.

(** X15. The snapshot key tells records apart as long as the printed
    student identifiers hold no colon: two keys are then equal only for
    student identifiers that print alike and equal item identifiers. *)
Theorem snapshot_key_inj (sid1 sid2 : pyval) (iid1 iid2 : string) :
  no_colon (py_str sid1) = true → no_colon (py_str sid2) = true →
  snapshot_key (sid1, iid1) = snapshot_key (sid2, iid2) →
  py_str sid1 = py_str sid2 ∧ iid1 = iid2.
Proof. unfold snapshot_key. simpl. apply no_colon_prefix. Qed.

Lemma snapshot_key_inj_witness :
  no_colon (py_str (VStr "S001")) = true ∧
  no_colon (py_str (VInt 7)) = true ∧
  snapshot_key (VStr "S001", "AS-20-60") ≠ snapshot_key (VInt 7, "AS-20-60").
Proof.
  split; [reflexivity|]. split; [reflexivity|]. intros Heq.
  by destruct (snapshot_key_inj (VStr "S001") (VInt 7) "AS-20-60" "AS-20-60"
                 eq_refl eq_refl Heq) as [[=] _].
Defined.

(** X16. When the snapshot keys of the records are pairwise different,
    the snapshot loses nothing: it holds every record under its key and
    as many records as the store. *)
Theorem snapshot_items_complete {V : Type} (items : list (pyval * string * V)) :
  NoDup (snapshot_key <$> items.*1) →
  (∀ k v, (k, v) ∈ items → snapshot_items items !! snapshot_key k = Some v) ∧
  size (snapshot_items items) = length items.
Proof.
  unfold snapshot_items.
  assert (∀ (m : gmap string V),
            NoDup (snapshot_key <$> items.*1) →
            (∀ k, k ∈ (snapshot_key <$> items.*1) → m !! k = None) →
            (∀ k v, (k, v) ∈ items →
               foldl (λ m kv, <[snapshot_key kv.1 := kv.2]> m) m items
                 !! snapshot_key k = Some v) ∧
            size (foldl (λ m kv, <[snapshot_key kv.1 := kv.2]> m) m items)
              = size m + length items) as Hgen.
  { induction items as [|[k0 v0] items IH]; intros m Hnd Hfresh; simpl.
    - split; [by intros k v ?%elem_of_nil|lia].
    - rewrite !fmap_cons in Hnd. apply NoDup_cons in Hnd as [Hk0 Hnd].
      destruct (IH (<[snapshot_key k0 := v0]> m) Hnd) as [Hlook Hsize].
      { intros k Hk. rewrite lookup_insert_ne.
        - apply Hfresh. by right.
        - intros <-. done. }
      split.
      + intros k v [[= -> ->]|Hin]%elem_of_cons; [|by apply Hlook].
        rewrite snapshot_items_lookup_other by done.
        by rewrite lookup_insert_eq.
      + rewrite Hsize, map_size_insert_None; [lia|].
        apply Hfresh. by left. }
  intros Hnd. destruct (Hgen ∅ Hnd) as [Hlook Hsize]; [done|].
  split; [done|]. by rewrite Hsize, map_size_empty.
Qed.

Lemma snapshot_items_complete_witness :
  NoDup (snapshot_key <$>
           [(VStr "S001", "AS-20-60", 2%Z); (VStr "S002", "AS-20-60", 0%Z)].*1) ∧
  size (snapshot_items
          [(VStr "S001", "AS-20-60", 2%Z); (VStr "S002", "AS-20-60", 0%Z)]) = 2.
Proof.
  assert (Hnd : NoDup (snapshot_key <$>
           [(VStr "S001", "AS-20-60", 2%Z); (VStr "S002", "AS-20-60", 0%Z)].*1)).
  { apply (bool_decide_unpack _). by vm_compute. }
  split; [done|].
  exact (proj2 (snapshot_items_complete _ Hnd)).
Defined.

(** ** Roster upload: labels, headers, exceptions *)

Section RosterMore.

Lemma df_select_Done labels (df r : DataFrame) :
  df_select labels df = Done r →
  (∀ col, col ∈ r → col ∈ df ∧ col.1 ∈ labels) ∧
  (∀ l, l ∈ labels → ∃ col, col ∈ r ∧ col.1 = l).
Proof.
  unfold DataFrame in *. revert r.
  induction labels as [|l labels IH]; intros r; simpl.
  - intros [= <-]. split; [by intros col ?%elem_of_nil|by intros l ?%elem_of_nil].
  - unfold DataFrame in *.
    match goal with
    | |- context [filter ?P df] =>
        destruct (filter P df) as [|col0 cols] eqn:Hfilter; [done|]
    end.
    destruct (df_select labels df) as [rest| |]; [|done..].
    intros [= <-]. destruct (IH rest eq_refl) as [Hin Hall].
    assert (∀ col, col ∈ col0 :: cols → col ∈ df ∧ col.1 = l) as Hcols.
    { intros col Hcol. rewrite <- Hfilter in Hcol.
      by apply list_elem_of_filter in Hcol as [? ?]. }
    split.
    + intros col Hcol. change (col ∈ (col0 :: cols) ++ rest) in Hcol.
      apply elem_of_app in Hcol as [Hcol|Hcol].
      * destruct (Hcols col Hcol) as [? <-]. split; [done|by left].
      * destruct (Hin col Hcol). split; [done|by right].
    + intros l' [->|Hl']%elem_of_cons.
      * exists col0. split; [by left|]. apply Hcols. by left.
      * destruct (Hall l' Hl') as (col & ? & ?). exists col.
        split; [|done]. change (col ∈ (col0 :: cols) ++ rest).
        apply elem_of_app. by right.
Qed.



Lemma py_lower_nonempty c k : py_lower c = k → k ≠ "" → c ≠ "".
Proof. by intros <- Hk ->. Qed.

Lemma cols_lower_lookup_Some (df : DataFrame) c k :
  c ∈ df_columns df → py_lower c = k →
  (∀ c', c' ∈ df_columns df → py_lower c' = k → c' = c) →
  cols_lower df !! k = Some c.
Proof.
  unfold cols_lower. intros Hin Hk Huniq.
  assert (∀ cols (m : gmap string string),
            (c ∈ cols ∨ m !! k = Some c) →
            (∀ c', c' ∈ cols → py_lower c' = k → c' = c) →
            foldl (λ m c, <[py_lower c := c]> m) m cols !! k = Some c) as Hgen.
  { induction cols as [|x cols IH]; intros m Hc Hu; simpl.
    - destruct Hc as [Hc|Hc]; [by apply elem_of_nil in Hc|done].
    - apply IH; [|intros c' Hc'; apply Hu; by right].
      destruct (decide (py_lower x = k)) as [Hx|Hx].
      + right. rewrite Hx, (Hu x) by (done || by left).
        by rewrite lookup_insert_eq.
      + rewrite lookup_insert_ne by done.
        destruct Hc as [[->|Hc]%elem_of_cons|Hc]; [done|by left|by right]. }
  apply Hgen; [by left|done].
Qed.

Lemma filter_renamed_none (mapping : gmap string string)
    (df : DataFrame) l :
  (∀ col, col ∈ df → default col.1 (mapping !! col.1) ≠ l) →
  filter (λ col : string * list pyval, col.1 = l) (df_rename mapping df) = [].
Proof.
  unfold df_rename, DataFrame in *.
  induction df as [|col df IH]; intros Hall; [done|].
  rewrite fmap_cons, filter_cons_False.
  - apply IH. intros col' Hcol'. apply Hall. by right.
  - cbn [fst]. apply Hall. by left.
Qed.

(** Selecting a label after renaming returns the one column that was
    renamed to it when no other column ends up under that label. *)
Lemma filter_renamed_unique (mapping : gmap string string)
    (df : DataFrame) c v l :
  NoDup (df_columns df) → (c, v) ∈ df → mapping !! c = Some l →
  (∀ col, col ∈ df → col.1 ≠ c → default col.1 (mapping !! col.1) ≠ l) →
  filter (λ col : string * list pyval, col.1 = l) (df_rename mapping df)
    = [(l, v)].
Proof.
  unfold df_columns, DataFrame in *.
  induction df as [|[c0 v0] df IH]; intros Hnd Hin Hmap Hother.
  { by apply elem_of_nil in Hin. }
  rewrite fmap_cons in Hnd. apply NoDup_cons in Hnd as [Hc0 Hnd].
  cbn [fst] in Hc0.
  unfold df_rename. rewrite fmap_cons. fold (df_rename mapping df).
  cbn [fst snd].
  destruct (decide (c0 = c)) as [->|Hne].
  - rewrite Hmap. cbn [default]. rewrite filter_cons_True by done.
    assert (v0 = v) as ->.
    { apply elem_of_cons in Hin as [[= ?]|Hin]; [done|].
      exfalso. apply Hc0. by apply (list_elem_of_fmap_2 fst) in Hin. }
    f_equal. apply filter_renamed_none. intros col Hcol.
    apply Hother; [by right|]. intros Heq. apply Hc0. rewrite <- Heq.
    by apply (list_elem_of_fmap_2 fst).
  - rewrite filter_cons_False.
    + apply IH; [done| |done|].
      * apply elem_of_cons in Hin as [[= ? ?]|Hin]; [by subst|done].
      * intros col Hcol. apply Hother. by right.
    + cbn [fst]. apply (Hother (c0, v0)); [by left|done].
Qed.

End RosterMore.

(** X17. A roster that was loaded has a column labelled ["ID"] and a
    column labelled ["이름"] and no column under another label, each
    taken from the uploaded table; the upload leaves the quiz, the
    stores and the widgets alone. *)
Theorem on_upload_labels (df : DataFrame) (st st' : session) :
  on_upload (Some df) st = Done st' →
  (∀ col, col ∈ students st' → col.1 = "ID" ∨ col.1 = "이름") ∧
  (∃ v, ("ID", v) ∈ students st') ∧ (∃ v, ("이름", v) ∈ students st') ∧
  (∀ col, col ∈ students st' → ∃ c, (c, col.2) ∈ df) ∧
  quiz_items st' = quiz_items st ∧ responses st' = responses st ∧
  rubric_scores st' = rubric_scores st ∧ widgets st' = widgets st.
Proof.
  unfold on_upload, load_roster.
  destruct (pick_column df "id" "학번" 0) as [id_col| |]; [|done..].
  destruct (pick_column df "이름" "name" 1) as [name_col| |]; [|done..].
  destruct (df_select _ _) as [r| |] eqn:Hsel; [|done..].
  intros [= <-]. simpl. apply df_select_Done in Hsel as [Hin Hall].
  split_and!; try done.
  - intros col [_ Hl]%Hin.
    apply elem_of_cons in Hl as [->|Hl]; [by left|].
    apply elem_of_cons in Hl as [->|Hl]; [by right|].
    by apply elem_of_nil in Hl.
  - destruct (Hall "ID") as ([l v] & ? & Hl); [by left|].
    simpl in Hl. subst l. by exists v.
  - destruct (Hall "이름") as ([l v] & ? & Hl); [right; by left|].
    simpl in Hl. subst l. by exists v.
  - intros col [Hcol _]%Hin. unfold df_rename in Hcol.
    apply list_elem_of_fmap in Hcol as ([c v] & -> & Hcv). by exists c.
Qed.

Lemma on_upload_labels_witness :
  ∃ st',
    on_upload (Some [("Name", [VStr "홍길동"]); ("학번", [VInt 20301]);
                     ("반", [VInt 3])]) initial_session = Done st' ∧
    students st' = [("ID", [VInt 20301]); ("이름", [VStr "홍길동"])] ∧
    (∀ col, col ∈ students st' → col.1 = "ID" ∨ col.1 = "이름").
Proof.
  eexists. split; [vm_compute; reflexivity|]. split; [reflexivity|].
  refine (proj1 (on_upload_labels
            [("Name", [VStr "홍길동"]); ("학번", [VInt 20301]); ("반", [VInt 3])]
            initial_session _ _)).
  vm_compute. reflexivity.
Defined.

(** X18. Headers are recognised whatever their case and position: when
    exactly one column is an identifier header ("id" or "학번" once in
    small letters) and exactly one is a name header ("이름" or "name"),
    the roster is these two columns, identifier first, and every other
    column is dropped. *)
Theorem load_roster_headers (df : DataFrame) (cid cname : string)
    (vid vname : list pyval) :
  NoDup (df_columns df) →
  (cid, vid) ∈ df → (cname, vname) ∈ df →
  py_lower cid ∈ ["id"; "학번"] → py_lower cname ∈ ["이름"; "name"] →
  (∀ c, c ∈ df_columns df → py_lower c ∈ roster_headers →
        c = cid ∨ c = cname) →
  load_roster df = Done [("ID", vid); ("이름", vname)].
Proof.
  intros Hnd Hid Hname Hlid Hlname Honly.
  assert (Hcid : cid ∈ df_columns df) by (by apply (list_elem_of_fmap_2 fst) in Hid).
  assert (Hcname : cname ∈ df_columns df)
    by (by apply (list_elem_of_fmap_2 fst) in Hname).
  assert (Hne : cid ≠ cname).
  { intros ->. revert Hlid Hlname. generalize (py_lower cname). intros k H1 H2.
    repeat (apply elem_of_cons in H1 as [->|H1];
            [repeat (apply elem_of_cons in H2 as [H2|H2]; [discriminate H2|]);
             by apply elem_of_nil in H2|]).
    by apply elem_of_nil in H1. }
  assert (Hheader : ∀ c k, c ∈ df_columns df → py_lower c = k →
                          k ∈ roster_headers → c = cid ∨ c = cname).
  { intros c k Hc <- Hk. by apply Honly. }
  (* the identifier column *)
  assert (Hpick_id : pick_column df "id" "학번" 0 = Done cid).
  { unfold pick_column.
    apply elem_of_cons in Hlid as [Hl|Hl].
    - rewrite (cols_lower_lookup_Some df cid "id"); [| done | done |].
      + simpl. rewrite bool_decide_eq_false_2; [done|].
        by apply (py_lower_nonempty _ _ Hl).
      + intros c' Hc' Hl'. destruct (Hheader c' "id" Hc' Hl') as [->| ->];
          [by left|done|]. exfalso. rewrite Hl' in Hlname.
        repeat (apply elem_of_cons in Hlname as [Hlname|Hlname];
                [discriminate Hlname|]).
        by apply elem_of_nil in Hlname.
    - apply elem_of_cons in Hl as [Hl|Hl]; [|by apply elem_of_nil in Hl].
      rewrite (cols_lower_lookup_None df "id").
      2:{ intros c' Hc' Hl'.
          destruct (Hheader c' "id" Hc' Hl') as [->| ->]; [by left| |].
          - rewrite Hl in Hl'. discriminate Hl'.
          - rewrite Hl' in Hlname.
            repeat (apply elem_of_cons in Hlname as [Hlname|Hlname];
                    [discriminate Hlname|]).
            by apply elem_of_nil in Hlname. }
      simpl.
      rewrite (cols_lower_lookup_Some df cid "학번"); [| done | done |].
      + simpl. rewrite bool_decide_eq_false_2; [done|].
        by apply (py_lower_nonempty _ _ Hl).
      + intros c' Hc' Hl'.
        destruct (Hheader c' "학번" Hc' Hl') as [->| ->];
          [right; by left|done|]. exfalso. rewrite Hl' in Hlname.
        repeat (apply elem_of_cons in Hlname as [Hlname|Hlname];
                [discriminate Hlname|]).
        by apply elem_of_nil in Hlname. }
  (* the name column *)
  assert (Hpick_name : pick_column df "이름" "name" 1 = Done cname).
  { unfold pick_column.
    apply elem_of_cons in Hlname as [Hl|Hl].
    - rewrite (cols_lower_lookup_Some df cname "이름"); [| done | done |].
      + simpl. rewrite bool_decide_eq_false_2; [done|].
        by apply (py_lower_nonempty _ _ Hl).
      + intros c' Hc' Hl'.
        destruct (Hheader c' "이름" Hc' Hl') as [->| ->];
          [do 2 right; by left| |done]. exfalso. rewrite Hl' in Hlid.
        repeat (apply elem_of_cons in Hlid as [Hlid|Hlid];
                [discriminate Hlid|]).
        by apply elem_of_nil in Hlid.
    - apply elem_of_cons in Hl as [Hl|Hl]; [|by apply elem_of_nil in Hl].
      rewrite (cols_lower_lookup_None df "이름").
      2:{ intros c' Hc' Hl'.
          destruct (Hheader c' "이름" Hc' Hl') as [->| ->];
            [do 2 right; by left| |].
          - rewrite Hl' in Hlid.
            repeat (apply elem_of_cons in Hlid as [Hlid|Hlid];
                    [discriminate Hlid|]).
            by apply elem_of_nil in Hlid.
          - rewrite Hl in Hl'. discriminate Hl'. }
      simpl.
      rewrite (cols_lower_lookup_Some df cname "name"); [| done | done |].
      + simpl. rewrite bool_decide_eq_false_2; [done|].
        by apply (py_lower_nonempty _ _ Hl).
      + intros c' Hc' Hl'.
        destruct (Hheader c' "name" Hc' Hl') as [->| ->];
          [do 3 right; by left| |done]. exfalso. rewrite Hl' in Hlid.
        repeat (apply elem_of_cons in Hlid as [Hlid|Hlid];
                [discriminate Hlid|]).
        by apply elem_of_nil in Hlid. }
  unfold load_roster. rewrite Hpick_id, Hpick_name.
  (* no other column ends up under "ID" or "이름" *)
  assert (Hother : ∀ col l, col ∈ df → l ∈ ["ID"; "이름"] →
            col.1 ≠ cid → col.1 ≠ cname →
            default col.1 ((<[cname := "이름"]> {[cid := "ID"]} : gmap string string)
                             !! col.1) ≠ l).
  { intros col l Hcol Hl H1 H2.
    rewrite lookup_insert_ne, lookup_singleton_ne by done. simpl.
    intros Heq.
    assert (py_lower col.1 ∈ roster_headers) as Hh.
    { rewrite Heq.
      apply elem_of_cons in Hl as [->|Hl]; [by left|].
      apply elem_of_cons in Hl as [->|Hl]; [do 2 right; by left|].
      by apply elem_of_nil in Hl. }
    apply (list_elem_of_fmap_2 fst) in Hcol.
    destruct (Honly _ Hcol Hh); done. }
  unfold df_select.
  rewrite (filter_renamed_unique _ df cid vid "ID"); [|done|done| |].
  2:{ rewrite lookup_insert_ne by done. by rewrite lookup_singleton_eq. }
  2:{ intros col Hcol Hc. destruct (decide (col.1 = cname)) as [->|Hc'].
      - by rewrite lookup_insert_eq.
      - apply Hother; [done|by left|done..]. }
  rewrite (filter_renamed_unique _ df cname vname "이름"); [done|done|done| |].
  - by rewrite lookup_insert_eq.
  - intros col Hcol Hc. destruct (decide (col.1 = cid)) as [->|Hc'].
    + rewrite lookup_insert_ne by done. by rewrite lookup_singleton_eq.
    + apply Hother; [done|right; by left|done..].
Qed.

Lemma load_roster_headers_witness :
  load_roster [("반", [VInt 3]); ("NAME", [VStr "홍길동"]); ("Id", [VStr "S001"])]
  = Done [("ID", [VStr "S001"]); ("이름", [VStr "홍길동"])].
Proof.
  apply (load_roster_headers _ "Id" "NAME").
  - apply (bool_decide_unpack _). by vm_compute.
  - do 2 right. by left.
  - right. by left.
  - by left.
  - right. by left.
  - intros c Hc Hh. cbn in Hc.
    repeat (apply elem_of_cons in Hc as [->|Hc]; [|]).
    + exfalso. revert Hh. apply (bool_decide_unpack _). by vm_compute.
    + by right.
    + by left.
    + by apply elem_of_nil in Hc.
Defined.


(** ** Generation followed by grading *)

(** X20. Grading the quiz that a generation of [n_items >= 1] items
    stored reports [2 * n_items] as the maximum and a total between
    zero and that maximum, for any student and any widget values. *)
Theorem generate_then_autograde {S : Type} `{PyRandom S}
    fuel seed n_items topics_selected (w w' : world S) (sid : pyval) :
  0 < n_items →
  on_generate fuel seed n_items topics_selected w = Done w' →
  ∃ total,
    snd (on_autograde sid (state w')) = Some (total, (2 * Z.of_nat n_items)%Z) ∧
    (0 ≤ total ≤ 2 * Z.of_nat n_items)%Z.
Proof.
  intros Hn. unfold on_generate.
  destruct (generate _ _ _ _) as [[items s]| |] eqn:Hgen; [|done..].
  intros [= <-]. apply generate_shape in Hgen as (Hlen & Hall & Hsum).
  set (st := {| students := students (state w) |}).
  assert (Hne : quiz_items st ≠ []).
  { simpl. intros ->. simpl in Hlen. lia. }
  exists (earned st items). cbn [state].
  rewrite on_autograde_quiz by done. cbn [snd quiz_items st].
  split; [by rewrite Hsum|]. rewrite <- Hsum. apply earned_bounds.
  intros item Hin. rewrite Forall_forall in Hall.
  destruct (Hall item Hin) as (_ & _ & ->). lia.
Qed.

Lemma generate_then_autograde_witness :
  ∃ w' total,
    on_generate (S := MT.state) 100 42 10 (fst <$> TOPICS)
      {| rng := MT.seed 0; state := initial_session |} = Done w' ∧
    snd (on_autograde (VStr "S001") (state w'))
      = Some (total, (2 * Z.of_nat 10)%Z) ∧
    (0 ≤ total ≤ 2 * Z.of_nat 10)%Z.
Proof.
  eexists _. 
  destruct (generate_then_autograde (S := MT.state) 100 42 10 (fst <$> TOPICS)
              {| rng := MT.seed 0; state := initial_session |} _ (VStr "S001")
              ltac:(lia) ltac:(vm_compute; reflexivity)) as (total & Hrep & Hb).
  exists total. split; [vm_compute; reflexivity|]. by split.
Defined.

(** ** Angle-sum and similarity items *)

(** X21. The third angle of an angle-sum item is a multiple of 5
    between 15 and 140 degrees; the choices are its string and those of
    the distractors [+5], [-5] and [+10], in some order. *)
Theorem gen_angle_sum_item_choices {S : Type} `{PyRandom S}
    fuel (s : S) item s' :
  gen_angle_sum_item fuel s = Done (item, s') →
  ∃ c : Z,
    (15 ≤ c ≤ 140)%Z ∧ (c `mod` 5 = 0)%Z ∧
    ObjItem.answer item = VStr (str_of_Z c) ∧
    ObjItem.choices item ≡ₚ
      [str_of_Z c; str_of_Z (c + 5); str_of_Z (c - 5); str_of_Z (c + 10)].
Proof.
  unfold gen_angle_sum_item. intros Hrun.
  run_bind Hrun as a0 Ha0. run_bind Hrun as b0 Hb0.
  run_bind Hrun as [a b] Hloop.
  apply choice_elem_of in Ha0, Hb0.
  apply angle_sum_loop_Done in Hloop as (Ha & Hb & Hsum); [|done..].
  run_bind Hrun as choices Hshuffle.
  apply ret_Done in Hrun as [<- _]. simpl.
  apply shuffle_Permutation in Hshuffle.
  apply py_range_elem_of in Ha as [? [i ->]]; [|lia].
  apply py_range_elem_of in Hb as [? [j ->]]; [|lia].
  exists (180 - (20 + i * 5 + (20 + j * 5)))%Z. split_and!; try done; try lia.
  replace (180 - (20 + i * 5 + (20 + j * 5)))%Z with ((28 - i - j) * 5)%Z by lia.
  by apply Z.mod_mul.
Qed.

Lemma gen_angle_sum_item_choices_witness :
  ∃ item s', gen_angle_sum_item 100 (MT.seed 42) = Done (item, s') ∧
  ∃ c : Z,
    (15 ≤ c ≤ 140)%Z ∧ (c `mod` 5 = 0)%Z ∧
    ObjItem.answer item = VStr (str_of_Z c) ∧
    ObjItem.choices item ≡ₚ
      [str_of_Z c; str_of_Z (c + 5); str_of_Z (c - 5); str_of_Z (c + 10)].
Proof.
  eexists _, _. split; [vm_compute; reflexivity|].
  eapply (gen_angle_sum_item_choices 100 (MT.seed 42)).
  vm_compute. reflexivity.
Defined.

(** X22. A similarity item names a first angle of 30, 40, 50 or 60 and
    a second of 40, 50, 60 or 70 degrees (together below 180) in its
    identifier, and offers the four fixed choices in some order. *)
Theorem gen_similarity_item_sound {S : Type} `{PyRandom S}
    fuel (s : S) item s' :
  gen_similarity_item fuel s = Done (item, s') →
  ∃ A B : Z,
    A ∈ [30; 40; 50; 60]%Z ∧ B ∈ [40; 50; 60; 70]%Z ∧ (A + B < 180)%Z ∧
    ObjItem.id item = "SIM-" +:+ str_of_Z A +:+ "-" +:+ str_of_Z B ∧
    ObjItem.choices item ≡ₚ ["가능(AA)"; "불가능"; "가능(SSS)"; "가능(SAS)"].
Proof.
  unfold gen_similarity_item. intros Hrun.
  run_bind Hrun as A HA. run_bind Hrun as B HB.
  run_bind Hrun as choices Hshuffle.
  apply ret_Done in Hrun as [<- _]. simpl.
  apply choice_elem_of in HA, HB. apply shuffle_Permutation in Hshuffle.
  exists A, B. split_and!; try done.
  repeat (apply elem_of_cons in HA as [->|HA];
          [repeat (apply elem_of_cons in HB as [->|HB]; [lia|]);
           by apply elem_of_nil in HB|]).
  by apply elem_of_nil in HA.
Qed.

Lemma gen_similarity_item_sound_witness :
  ∃ item s', gen_similarity_item 100 (MT.seed 42) = Done (item, s') ∧
  ∃ A B : Z,
    A ∈ [30; 40; 50; 60]%Z ∧ B ∈ [40; 50; 60; 70]%Z ∧ (A + B < 180)%Z ∧
    ObjItem.id item = "SIM-" +:+ str_of_Z A +:+ "-" +:+ str_of_Z B ∧
    ObjItem.choices item ≡ₚ ["가능(AA)"; "불가능"; "가능(SSS)"; "가능(SAS)"].
Proof.
  eexists _, _. split; [vm_compute; reflexivity|].
  eapply (gen_similarity_item_sound 100 (MT.seed 42)).
  vm_compute. reflexivity.
Defined.
